(** * Lunari: the cycle-prediction service

    A shallow embedding of [services/periodPredictions.ts]
    (class [PeriodPredictionService]) together with the episode grouping
    that the statistics and calendar screens repeat, and the properties
    the specification states about them.

    The specification names the operations [estimateCycleLength]
    ([getAverageCycleLength] in the code), [predictNext] ([getPrediction]),
    [cycleDayOf] ([getCurrentCycleDay]), [ovulationDay]
    ([getOvulationDay]), [fertilityWindow] ([getFertilityWindow]) and
    [classify] ([getCyclePhase], [getPregnancyChance], [getCycleInfo]).

    Numbers.  JavaScript has one number type, the IEEE-754 binary64
    double.  The embedding keeps three views of it, each exact on the
    values the code produces:
    - time values, array lengths, cycle days and day counts are integers
      ([Z]); a time value is at most 8.64e15 in magnitude;
    - the quotient of a time difference by the length of a day is an exact
      rational ([Q]): for a difference below 2^53 ms (some 285,000 years)
      the double quotient is never rounded onto or across an integer, so
      [Math.floor], [Math.ceil] and the comparison with 7 give what they
      give on the exact quotient;
    - the weighted average is computed on primitive binary64 floats, because
      0.2 is not a binary64 value and the rounding of [k * 0.2], of the
      products and of the sums decides the result on ties.

    Dates.  A date string passed to the service is identified with the
    calendar day it names (counted in days from 1970-01-01) and with the
    way [new Date] reads it: the form 'YYYY-MM-DD' the store keeps is read
    as midnight UTC, a form without zone such as 'YYYY-MM-DDT00:00' as
    midnight local time.  Strings that do not parse as dates are outside
    the model.  What [toLocaleDateString()] returns is a string of its own
    kind: it names a local calendar day in the host's locale, and whether
    [new Date] reads it back, and as what, is up to the host.

    The host.  Local time is UTC plus an offset that may change with the
    date (daylight saving); the two offset functions of the host are the
    [LocalTZA] of the language specification. *)

From Stdlib Require Import ZArith QArith Qround Qabs List Bool String Lia.
From Stdlib Require Import Permutation Sorted.
From Stdlib Require Import Floats.
From Stdlib Require Import DecimalString.
Import ListNotations.

#[local] Set Warnings "-inexact-float".
#[local] Open Scope Z_scope.

(* ================================================================= *)
(** ** The JavaScript runtime, as far as the service uses it *)

Module JS.

(** [1000 * 60 * 60 * 24], the divisor of every day computation. *)
Definition MS_PER_DAY : Z := 1000 * 60 * 60 * 24.

(** [a / b] on two integer-valued numbers. *)
Definition div (a b : Z) : Q := (inject_Z a / inject_Z b)%Q.

Definition Math_floor (x : Q) : Z := Qfloor x.
Definition Math_ceil (x : Q) : Z := Qceiling x.
Definition Math_abs (x : Q) : Q := Qabs x.

(** An integer-valued number as a double (exact below 2^53, rounded to
    nearest even above). *)
Definition Number_of_Z (z : Z) : float :=
  SF2Prim (binary_normalize prec emax z 0 false).

(** [Math.max] on two doubles, neither of them NaN. *)
Definition Math_max (a b : float) : float :=
  if PrimFloat.ltb a b then b else a.

(** [Math.round]: the integer nearest to [x], a tie going up, that is
    [floor (x + 1/2)] computed exactly.  On NaN and the infinities, where
    JavaScript returns the argument, the embedding returns 0; zero is the
    only other value without a mantissa. *)
Definition Math_round (x : float) : Z :=
  match Prim2SF x with
  | S754_finite s m e =>
      let n := if s then Z.neg m else Z.pos m in
      if 0 <=? e then n * 2 ^ e
      else (2 * n + 2 ^ (- e)) / 2 ^ (1 - e)
  | _ => 0
  end.

(** The real number a finite double stands for; 0 for NaN and the
    infinities, which stand for none. *)
Definition valueOf (x : float) : Q :=
  match Prim2SF x with
  | S754_finite s m e =>
      let n := if s then Z.neg m else Z.pos m in
      if 0 <=? e then inject_Z (n * 2 ^ e)
      else Qmake n (Z.to_pos (2 ^ (- e)))
  | _ => 0%Q
  end.

(** *** Calendar days *)

(** Day number of the civil date [y]-[m]-[d], 1970-01-01 being day 0
    (proleptic Gregorian calendar). *)
Definition days_from_civil (y m d : Z) : Z :=
  let y' := if m <=? 2 then y - 1 else y in
  let era := y' / 400 in
  let yoe := y' - era * 400 in
  let doy := (153 * (if 2 <? m then m - 3 else m + 9) + 2) / 5 + d - 1 in
  let doe := yoe * 365 + yoe / 4 - yoe / 100 + doy in
  era * 146097 + doe - 719468.

(** The civil date of a day number. *)
Definition civil_from_days (z : Z) : Z * Z * Z :=
  let z' := z + 719468 in
  let era := z' / 146097 in
  let doe := z' - era * 146097 in
  let yoe := (doe - doe / 1460 + doe / 36524 - doe / 146096) / 365 in
  let doy := doe - (365 * yoe + yoe / 4 - yoe / 100) in
  let mp := (5 * doy + 2) / 153 in
  let d := doy - (153 * mp + 2) / 5 + 1 in
  let m := if mp <? 10 then mp + 3 else mp - 9 in
  ((if m <=? 2 then yoe + era * 400 + 1 else yoe + era * 400), m, d).

(** Day number of the first day of the month that contains day [z]. *)
Definition month_start (z : Z) : Z :=
  let '(y, m, _) := civil_from_days z in days_from_civil y m 1.

(** *** Date strings and [Date] objects *)

Inductive DateString : Type :=
| ISODate (day : Z)     (* 'YYYY-MM-DD', the form the store keeps *)
| LocalDate (day : Z).  (* a form read in local time, 'YYYY-MM-DDT00:00' *)

(** '[y]-[m]-[d]'. *)
Definition iso (y m d : Z) : DateString := ISODate (days_from_civil y m d).

(** What [toLocaleDateString()] returns: the rendering of a local
    calendar day in the host's locale, or the text 'Invalid Date'. *)
Inductive Rendered : Type :=
| RenderedDay (day : Z)
| InvalidDate.

(** The rendering of the civil date [y]-[m]-[d]. *)
Definition rendered (y m d : Z) : Rendered :=
  RenderedDay (days_from_civil y m d).

(** A [Date] object is its time value: milliseconds from the epoch. *)
Definition Date : Type := Z.

Definition getTime (d : Date) : Z := d.

(** The host the code runs on: its time zone, and what its [Date] parser
    makes of a rendered day. *)
Record Host : Type := {
  (** [LocalTZA(t, true)]: the offset of local time in force at the UTC
      time value [t], in milliseconds. *)
  LocalTZA_utc : Z -> Z;
  (** [LocalTZA(t, false)]: the offset taken for the local time value
      [t]; a local time that a clock change repeats or skips is read with
      the offset in force before the change. *)
  LocalTZA_local : Z -> Z;
  (** [new Date(s).getTime()] for [s] the rendering of local day [day];
      [None] is NaN, the time value of an invalid date. *)
  readBack : Z -> option Z
}.

Definition Day (t : Z) : Z := t / MS_PER_DAY.
Definition TimeWithinDay (t : Z) : Z := t mod MS_PER_DAY.

Section LocalTime.

Variable host : Host.

Definition LocalTime (t : Z) : Z := t + LocalTZA_utc host t.
Definition UTC (t : Z) : Z := t - LocalTZA_local host t.

(** [new Date(s)] for a date string. *)
Definition new_Date (s : DateString) : Date :=
  match s with
  | ISODate day => day * MS_PER_DAY
  | LocalDate day => UTC (day * MS_PER_DAY)
  end.

(** [new Date(s)] for a string that [toLocaleDateString()] returned;
    [None] is an invalid date. *)
Definition new_Date_rendered (s : Rendered) : option Date :=
  match s with
  | RenderedDay day => readBack host day
  | InvalidDate => None
  end.

(** [d.getDate()]: the day of the month, in local time. *)
Definition getDate (d : Date) : Z :=
  let day := Day (LocalTime d) in day - month_start day + 1.

(** [d.setDate(date)]: the object after the call.  The day of the month
    may lie outside the month; the local time of day is kept, and the
    result is taken back to UTC with the offset of the local time
    reached. *)
Definition setDate (d : Date) (date : Z) : Date :=
  let t := LocalTime d in
  UTC ((month_start (Day t) + date - 1) * MS_PER_DAY + TimeWithinDay t).

(** [d.toLocaleDateString()]. *)
Definition toLocaleDateString (d : Date) : Rendered :=
  RenderedDay (Day (LocalTime d)).

End LocalTime.

(** *** Hosts *)

(** A host whose local time is at a fixed offset from UTC and whose
    parser reads a rendered day back as midnight local time of that day
    (as with 'M/D/YYYY'). *)
Definition fixedOffset (offset : Z) : Host :=
  {| LocalTZA_utc := fun _ => offset;
     LocalTZA_local := fun _ => offset;
     readBack := fun day => Some (day * MS_PER_DAY - offset) |}.

(** A host on UTC. *)
Definition utc : Host := fixedOffset 0.

(** A host with daylight saving: offset [summer] from the UTC time value
    [from] up to [till], offset [winter] otherwise; it reads a rendered
    day back as midnight local time. *)
Definition seasonal (winter summer from till : Z) : Host :=
  let local := fun t =>
    if t <? from + summer then winter
    else if t <? till + summer then summer
    else winter in
  {| LocalTZA_utc := fun t =>
       if (from <=? t) && (t <? till) then summer else winter;
     LocalTZA_local := local;
     readBack := fun day => Some (day * MS_PER_DAY - local (day * MS_PER_DAY)) |}.

Definition hour : Z := 1000 * 60 * 60.

(** New York in 2024: UTC-5, and UTC-4 from 10 March 07:00 UTC to
    3 November 06:00 UTC. *)
Definition newYork2024 : Host :=
  seasonal (- 5 * hour) (- 4 * hour)
    (days_from_civil 2024 3 10 * MS_PER_DAY + 7 * hour)
    (days_from_civil 2024 11 3 * MS_PER_DAY + 6 * hour).

(** Berlin in 2024: UTC+1, and UTC+2 from 31 March 01:00 UTC to
    27 October 01:00 UTC. *)
Definition berlin2024 : Host :=
  seasonal (1 * hour) (2 * hour)
    (days_from_civil 2024 3 31 * MS_PER_DAY + 1 * hour)
    (days_from_civil 2024 10 27 * MS_PER_DAY + 1 * hour).

(** A host on UTC whose locale renders 'DD/MM/YYYY' and whose parser reads
    that form as month/day/year: a rendered day is read back with day and
    month exchanged, and not at all when its day of the month is above
    12. *)
Definition dayMonthHost : Host :=
  {| LocalTZA_utc := fun _ => 0;
     LocalTZA_local := fun _ => 0;
     readBack := fun day =>
       let '(y, m, d) := civil_from_days day in
       if d <=? 12 then Some (days_from_civil y d m * MS_PER_DAY) else None |}.

(** *** Arrays *)

Section Sort.

Context {A : Type}.

(** [compareFn a b <= 0] keeps [a] before [b]. *)
Variable compareFn : A -> A -> Z.

Fixpoint insert (x : A) (l : list A) : list A :=
  match l with
  | [] => [x]
  | y :: l' => if compareFn x y <=? 0 then x :: l else y :: insert x l'
  end.

(** [a.sort(compareFn)]: the contents of [a] after the call, which sorts
    in place and is stable. *)
Fixpoint Array_sort (a : list A) : list A :=
  match a with
  | [] => []
  | x :: a' => insert x (Array_sort a')
  end.

End Sort.

(** [a.push(x)]: the contents of [a] after the call. *)
Definition push {A : Type} (a : list A) (x : A) : list A := a ++ [x].

End JS.

Import JS.

(* ================================================================= *)
(** ** The service *)

Record PredictionResult : Type := {
  days : Z;
  date : Rendered;
  cycleLength : Z
}.

Record FertilityWindow : Type := {
  start : Rendered;
  end_ : Rendered;
  ovulationDay : Rendered
}.

Record CycleInfo : Type := {
  phase : string;
  description : string;
  cycleDay : Z;
  pregnancyChance : string
}.

Module PeriodPredictionService.

Section Service.

(** The host the code runs on. *)
Variable host : Host.

(** [(a, b) => new Date(b).getTime() - new Date(a).getTime()]: most
    recent first. *)
Definition byTimeDescending (a b : DateString) : Z :=
  getTime (new_Date host b) - getTime (new_Date host a).

(** The grouping loop, [for (let i = 1; i < sortedDates.length; i++)]:
    [prev] is [sortedDates[i-1]] and [rest] is what is left of the array
    from index [i] on. *)
Fixpoint groupLoop (prev : DateString) (rest : list DateString)
    (periods : list (list DateString)) (currentPeriod : list DateString)
    : list (list DateString) :=
  match rest with
  | [] => push periods currentPeriod
  | d :: rest' =>
      let dayDiff :=
        Math_abs (div (getTime (new_Date host d) - getTime (new_Date host prev))
                      MS_PER_DAY) in
      if Qle_bool dayDiff 7
      then groupLoop d rest' periods (push currentPeriod d)
      else groupLoop d rest' (push periods currentPeriod) [d]
  end.

(** "Group consecutive days into periods", on the sorted array.  Every
    caller returns before this point when the array is empty, which is the
    first case. *)
Definition groupPeriods (sortedDates : list DateString)
    : list (list DateString) :=
  match sortedDates with
  | [] => []
  | first :: rest => groupLoop first rest [] [first]
  end.

(** The episodes of a date list: sort most recent first, then group
    (lines 24-38 of the service, lines 55-71 of the statistics screen). *)
Definition episodes (dates : list DateString) : list (list DateString) :=
  groupPeriods (Array_sort byTimeDescending dates).

(** [p[p.length - 1]].  Every period the grouping builds has a member,
    so the default is never returned. *)
Definition lastOf (p : list DateString) : DateString := last p (ISODate 0).

(** The averaging loop,
    [for (let i = 1; i < Math.min(periods.length, 6); i++)]:
    [before] is [periods[i-1]] and [rest] is what is left of [periods]
    from index [i] on, so [i < periods.length] exactly when [rest] is not
    empty. *)
Fixpoint averageLoop (i : nat) (before : list DateString)
    (rest : list (list DateString))
    (weightedTotal weightSum : float) (cycles : nat)
    : float * float * nat :=
  match rest with
  | [] => (weightedTotal, weightSum, cycles)
  | period :: rest' =>
      if (i <? 6)%nat then
        let currentPeriodStart := new_Date host (lastOf before) in
        let prevPeriodStart := new_Date host (lastOf period) in
        let dayDiff :=
          Math_floor (div (getTime currentPeriodStart - getTime prevPeriodStart)
                          MS_PER_DAY) in
        let weight :=
          Math_max (1 - Number_of_Z (Z.of_nat cycles) * 0.2)%float 0.2%float in
        averageLoop (S i) period rest'
          (weightedTotal + Number_of_Z dayDiff * weight)%float
          (weightSum + weight)%float
          (S cycles)
      else (weightedTotal, weightSum, cycles)
  end.

(** [getAverageCycleLength(dates)]: the number returned, and the contents
    of the caller's array [dates] after the call ([dates.sort] sorts the
    array it is given). *)
Definition getAverageCycleLength (dates : list DateString)
    : Z * list DateString :=
  if (List.length dates <? 2)%nat then (28, dates)
  else
    let sortedDates := Array_sort byTimeDescending dates in
    let periods := groupPeriods sortedDates in
    let '(weightedTotal, weightSum, cycles) :=
      match periods with
      | [] => (0%float, 0%float, 0%nat)
      | first :: rest => averageLoop 1 first rest 0%float 0%float 0%nat
      end in
    (if (0 <? cycles)%nat then Math_round (weightedTotal / weightSum)%float
     else 28,
     sortedDates).

(** [getPrediction(startDate, allDates)].  [now] is the wall-clock time
    that [new Date()] reads; the second component is the caller's array
    [allDates] after the call. *)
Definition getPrediction (now : Z) (startDate : DateString)
    (allDates : list DateString) : PredictionResult * list DateString :=
  let '(cycleLength, allDates') := getAverageCycleLength allDates in
  let today : Date := now in
  let nextPeriod := new_Date host startDate in
  let nextPeriod := setDate host nextPeriod (getDate host nextPeriod + cycleLength) in
  let daysUntil :=
    Math_ceil (div (getTime nextPeriod - getTime today) MS_PER_DAY) in
  ({| days := daysUntil;
      date := toLocaleDateString host nextPeriod;
      cycleLength := cycleLength |},
   allDates').

(** [getCurrentCycleDay(startDate, currentDate?)]. *)
Definition getCurrentCycleDay (now : Z) (startDate : DateString)
    (currentDate : option DateString) : Z :=
  let start := new_Date host startDate in
  let current : Date :=
    match currentDate with
    | Some c => new_Date host c
    | None => now
    end in
  let dayDiff :=
    Math_floor (div (getTime current - getTime start) MS_PER_DAY) in
  dayDiff + 1.

(** [cycleLength || 28]: an omitted argument and 0 are both falsy. *)
Definition orDefault28 (cycleLength : option Z) : Z :=
  match cycleLength with
  | Some n => if n =? 0 then 28 else n
  | None => 28
  end.

(** [getOvulationDay(startDate, cycleLength?)]. *)
Definition getOvulationDay (startDate : DateString) (cycleLength : option Z)
    : Rendered :=
  let start := new_Date host startDate in
  let length := orDefault28 cycleLength in
  let ovulationDayOffset := length - 14 in
  let ovulationDate : Date := start in
  let ovulationDate :=
    setDate host ovulationDate (getDate host ovulationDate + ovulationDayOffset) in
  toLocaleDateString host ovulationDate.

(** [getFertilityWindow(startDate, cycleLength?)].  The ovulation day is
    read back from its rendering; when the host makes an invalid date of
    it, [getDate] is NaN, [setDate] leaves the copy invalid and its
    rendering is the text 'Invalid Date'. *)
Definition getFertilityWindow (startDate : DateString)
    (cycleLength : option Z) : FertilityWindow :=
  let cycle := orDefault28 cycleLength in
  let ovulationDay := getOvulationDay startDate (Some cycle) in
  match new_Date_rendered host ovulationDay with
  | Some ovulationDate =>
      let startWindow : Date := ovulationDate in
      let startWindow :=
        setDate host startWindow (getDate host ovulationDate - 5) in
      {| start := toLocaleDateString host startWindow;
         end_ := ovulationDay;
         ovulationDay := ovulationDay |}
  | None =>
      {| start := InvalidDate;
         end_ := ovulationDay;
         ovulationDay := ovulationDay |}
  end.

End Service.

Definition getCyclePhase (cycleDay : Z) : string :=
  if cycleDay <=? 5 then "Menstrual"
  else if cycleDay <=? 10 then "Follicular"
  else if cycleDay <=? 14 then "Ovulatory"
  else if cycleDay <=? 28 then "Luteal"
  else "Extended".

Definition getPhaseDescription (phase : string) : string :=
  if String.eqb phase "Menstrual" then
    "Your period is happening. You might experience cramps, fatigue, and mood changes. Focus on rest and self-care."
  else if String.eqb phase "Follicular" then
    "Energy levels start to rise with increasing estrogen. Good time for starting new projects and physical activity."
  else if String.eqb phase "Ovulatory" then
    "Peak fertility window. You might notice increased energy, better mood, and heightened sex drive."
  else if String.eqb phase "Luteal" then
    "Progesterone rises. You might experience PMS symptoms like bloating or mood changes. Focus on gentle exercise and comfort."
  else if String.eqb phase "Extended" then
    "Your cycle has gone longer than typical. Consider tracking any symptoms and consulting your healthcare provider if this persists."
  else "".

Definition getPregnancyChance (cycleDay : Z) : string :=
  if (11 <=? cycleDay) && (cycleDay <=? 17) then "High"
  else if ((8 <=? cycleDay) && (cycleDay <=? 10))
          || ((18 <=? cycleDay) && (cycleDay <=? 20)) then "Medium"
  else "Low".

Definition getPregnancyChanceDescription (chance : string) : string :=
  if String.eqb chance "High" then
    "This is your fertile window when conception is most likely to occur. Ovulation typically happens during this time."
  else if String.eqb chance "Medium" then
    "There is a moderate chance of conception during this time as you approach or move away from your fertile window."
  else if String.eqb chance "Low" then
    "Conception is less likely during this time. This includes menstrual days and the later luteal phase of your cycle."
  else "".

Definition getPossibleSymptoms (phase : string) : string :=
  if String.eqb phase "Menstrual" then
    "Cramps, bloating, fatigue, headaches, mood swings, back pain, breast tenderness, and heavy or light bleeding."
  else if String.eqb phase "Follicular" then
    "Increased energy, improved mood, clearer skin, higher motivation, and generally feeling more positive and active."
  else if String.eqb phase "Ovulatory" then
    "Increased libido, mild pelvic pain, changes in cervical mucus, breast tenderness, and heightened energy levels."
  else if String.eqb phase "Luteal" then
    "PMS symptoms including bloating, mood changes, irritability, food cravings, breast tenderness, fatigue, and acne."
  else if String.eqb phase "Extended" then
    "Irregular symptoms may occur. You might experience fatigue, mood changes, or other cycle-related symptoms."
  else "".

(** [getCycleInfo(startDate, currentDate?, cycleLength?)]; the third
    argument is not used. *)
Definition getCycleInfo (host : Host) (now : Z) (startDate : DateString)
    (currentDate : option DateString) (cycleLength : option Z) : CycleInfo :=
  let cycleDay := getCurrentCycleDay host now startDate currentDate in
  let phase := getCyclePhase cycleDay in
  {| phase := phase;
     description := getPhaseDescription phase;
     cycleDay := cycleDay;
     pregnancyChance := getPregnancyChance cycleDay |}.

End PeriodPredictionService.

Import PeriodPredictionService.

(* ================================================================= *)
(** ** The weighted average, in the words of the specification

    Episodes come most recent first.  The start of an episode is its
    earliest date; gap [k] is the day difference between the start of the
    [k]-th most recent episode and the start of the next-older one; its
    weight is [max(1 - k*0.2, 0.2)]; the estimate is
    [round(sum(gap*weight) / sum(weight))] over at most five gaps, [round]
    giving the nearest integer, a half going up.  The formula is written
    out twice: evaluated in doubles, each sum taken from gap 0 on
    ([estimateCycleLength]), and evaluated exactly ([estimateExactly]). *)

Module Spec.

Section Spec.

Variable host : Host.

Definition timeOf (s : DateString) : Z := getTime (new_Date host s).

(** The time of the earliest date of an episode. *)
Definition startTime (episode : list DateString) : Z :=
  match episode with
  | [] => 0
  | first :: others => fold_right (fun s m => Z.min (timeOf s) m) (timeOf first) others
  end.

(** Whole days from the start of [older] to the start of [newer]. *)
Definition gapDays (newer older : list DateString) : Z :=
  (startTime newer - startTime older) / MS_PER_DAY.

(** The gaps between consecutive episodes, most recent first. *)
Fixpoint gaps (eps : list (list DateString)) : list Z :=
  match eps with
  | newer :: (older :: _) as rest => gapDays newer older :: gaps rest
  | _ => []
  end.

Definition weight (k : nat) : float :=
  Math_max (1 - Number_of_Z (Z.of_nat k) * 0.2)%float 0.2%float.

(** [acc + term k g0 + term (k+1) g1 + ...], added in this order. *)
Fixpoint sumFrom (term : nat -> Z -> float) (k : nat) (gs : list Z)
    (acc : float) : float :=
  match gs with
  | [] => acc
  | g :: gs' => sumFrom term (S k) gs' (acc + term k g)%float
  end.

Definition weightedTotal (gs : list Z) : float :=
  sumFrom (fun k g => (Number_of_Z g * weight k)%float) 0 gs 0%float.

Definition weightSum (gs : list Z) : float :=
  sumFrom (fun k _ => weight k) 0 gs 0%float.

(** The integer nearest to a number, a half going up. *)
Definition round (x : Q) : Z := Qfloor (x + (1 # 2))%Q.

(** The formula in binary64: the weights, the products, the two sums and
    the quotient are doubles, and the quotient's value is rounded. *)
Definition estimateCycleLength (eps : list (list DateString)) : Z :=
  let recent := firstn 5 (gaps eps) in
  round (valueOf (weightedTotal recent / weightSum recent)%float).

(** The formula in exact arithmetic. *)
Definition exactWeight (k : nat) : Q :=
  let w := (1 - inject_Z (Z.of_nat k) * (2 # 10))%Q in
  if Qle_bool w (2 # 10) then (2 # 10)%Q else w.

Fixpoint exactSum (term : nat -> Z -> Q) (k : nat) (gs : list Z) : Q :=
  match gs with
  | [] => 0%Q
  | g :: gs' => (term k g + exactSum term (S k) gs')%Q
  end.

Definition estimateExactly (eps : list (list DateString)) : Z :=
  let recent := firstn 5 (gaps eps) in
  round (exactSum (fun k g => inject_Z g * exactWeight k)%Q 0 recent
         / exactSum (fun k _ => exactWeight k) 0 recent)%Q.

End Spec.

End Spec.

(** The classification tables of the specification. *)
Module Tables.

Definition phaseOn (p : string) (day : Z) : Prop :=
  (p = "Menstrual"%string /\ day <= 5)
  \/ (p = "Follicular"%string /\ 6 <= day <= 10)
  \/ (p = "Ovulatory"%string /\ 11 <= day <= 14)
  \/ (p = "Luteal"%string /\ 15 <= day <= 28)
  \/ (p = "Extended"%string /\ 28 < day).

Definition chanceOn (c : string) (day : Z) : Prop :=
  (c = "High"%string /\ 11 <= day <= 17)
  \/ (c = "Medium"%string /\ (8 <= day <= 10 \/ 18 <= day <= 20))
  \/ (c = "Low"%string /\ ~ (11 <= day <= 17)
      /\ ~ (8 <= day <= 10 \/ 18 <= day <= 20)).

End Tables.

(** *** Order of an array *)

Section Order.

Context {A : Type}.
Variable key : A -> Z.

(** [a] may stand before [b]: its key is not the smaller one. *)
Definition before (a b : A) : Prop := key b <= key a.

Definition descending (l : list A) : Prop := StronglySorted before l.

End Order.

(** The day a date string names. *)
Definition dayOf (s : DateString) : Z :=
  match s with ISODate day | LocalDate day => day end.

(** *** Hosts and dates that go well together *)

(** The date [n] days after [t] on the local calendar, at the same local
    time of day: what [d.setDate(d.getDate() + n)] makes of [d]. *)
Definition addLocalDays (host : Host) (t : Date) (n : Z) : Date :=
  UTC host (LocalTime host t + n * MS_PER_DAY).

(** No clock change of the host moves a local time to another day: the
    time a local time value stands for falls, in local time, on the same
    calendar day. *)
Definition keepsDay (host : Host) : Prop :=
  forall l, Day (LocalTime host (UTC host l)) = Day l.

(** The host reads its rendering of a day back as a time of that day. *)
Definition readsBackItsDays (host : Host) : Prop :=
  forall day, exists t,
    readBack host day = Some t /\ Day (LocalTime host t) = day.

(** In local time the date [s] stands for falls on the calendar day it
    names. *)
Definition onNamedDay (host : Host) (s : DateString) : Prop :=
  Day (LocalTime host (new_Date host s)) = dayOf s.

(* ================================================================= *)
(** ** Episodes as runs

    The grouping loop builds the periods with two accumulators.  Read from
    the front of the sorted array it cuts the array into runs: a run goes
    on while the next element is at most seven days from the one before
    it. *)

Section Runs.

Context {A : Type}.
Variable key : A -> Z.

(** [b], the element after [a], is at most seven days from it. *)
Definition near (a b : A) : bool := Z.abs (key b - key a) <=? 7 * MS_PER_DAY.

(** The run that starts at [x], and the runs after it. *)
Fixpoint runs (x : A) (rest : list A) : list A * list (list A) :=
  match rest with
  | [] => ([x], [])
  | y :: rest' =>
      let '(run, others) := runs y rest' in
      if near x y then (x :: run, others) else ([x], run :: others)
  end.

Definition runsOf (l : list A) : list (list A) :=
  match l with
  | [] => []
  | x :: rest => let '(run, others) := runs x rest in run :: others
  end.

End Runs.

(* ================================================================= *)
(** ** The calendar screen

    [loadData] groups the stored dates as the service does and keeps the
    start of the most recent period; [updateSelectedDateInfo] asks the
    service for the cycle day of the selected date.  Of the component's
    state only [firstPeriodDate] and [cycleDay] are followed. *)

Module CalendarScreen.

Section Screen.

Variable host : Host.

(** What [loadData] passes to [setFirstPeriodDate], [saved] being the
    dates of the rows the store returns. *)
Definition loadData_firstPeriodDate (saved : list DateString)
    : option DateString :=
  if (0 <? List.length saved)%nat then
    let sortedDates := Array_sort (byTimeDescending host) saved in
    let periods := groupPeriods host sortedDates in
    let mostRecentPeriod := nth 0 periods [] in
    let mostRecentStart := lastOf mostRecentPeriod in
    Some mostRecentStart
  else None.

(** [updateSelectedDateInfo(date)]: the [cycleDay] state after the call,
    [cycleDayBefore] being the state before it. *)
Definition updateSelectedDateInfo (now : Z)
    (firstPeriodDate : option DateString) (date : DateString)
    (cycleDayBefore : option Z) : option Z :=
  match firstPeriodDate with
  | None => cycleDayBefore
  | Some firstPeriodDate =>
      let selectedDateObj := new_Date host date in
      let startDateObj := new_Date host firstPeriodDate in
      if getTime startDateObj <=? getTime selectedDateObj then
        let cycleInfo := getCycleInfo host now firstPeriodDate (Some date) None in
        Some (cycleDay cycleInfo)
      else None
  end.

End Screen.

End CalendarScreen.

(* ================================================================= *)
(** ** The statistics screen

    [loadStatistics] reads the stored dates, groups them as the service
    does and fills four pieces of state: the number of completed cycles,
    the average cycle length, the average period length and the cycle
    history.  The quotient of two array lengths is an exact rational, as
    for the day quotients: below 2^32 elements the double quotient is never
    rounded onto or across a half. *)

(** [Math.round] on an exact quotient: [floor (x + 1/2)]. *)
Definition Math_round_exact (x : Q) : Z := Qfloor (x + (1 # 2)).

Module StatsScreen.

(** [string | number]. *)
Inductive StringOrNumber : Type :=
| Str (s : string)
| Num (n : Z).

Record CycleData : Type := {
  startDate : string;
  cycleLength : StringOrNumber;
  periodLength : Z
}.

(** [HistoryEntryWithDate extends CycleData]: the entry, as the screen
    takes it apart again with [({ originalDate, ...rest }) => rest]. *)
Record HistoryEntryWithDate : Type := {
  originalDate : DateString;
  rest : CycleData
}.

(** The component's state. *)
Record State : Type := {
  completedCycles : Z;
  averageCycleLength : Z;
  averagePeriodLength : Z;
  cycleHistory : list CycleData
}.

Definition monthNames : list string :=
  ["Jan"; "Feb"; "Mar"; "Apr"; "May"; "Jun";
   "Jul"; "Aug"; "Sep"; "Oct"; "Nov"; "Dec"]%string.

Section Screen.

Variable host : Host.

(** [date.toLocaleDateString('en-US', { month: 'short', day: 'numeric' })],
    "Apr 10" for instance. *)
Definition toShortDateString (date : Date) : string :=
  let '(_, m, d) := civil_from_days (Day (LocalTime host date)) in
  (nth (Z.to_nat (m - 1)) monthNames "" ++ " "
   ++ NilZero.string_of_int (Z.to_int d))%string.

Definition formatDate (dateString : DateString) : string :=
  let date := new_Date host dateString in
  toShortDateString date.

(** [(a, b) => new Date(a).getTime() - new Date(b).getTime()]: earliest
    first. *)
Definition byTimeAscending (a b : DateString) : Z :=
  getTime (new_Date host a) - getTime (new_Date host b).

(** [(a, b) => new Date(b.originalDate).getTime()
                - new Date(a.originalDate).getTime()]. *)
Definition byOriginalDateDescending (a b : HistoryEntryWithDate) : Z :=
  getTime (new_Date host (originalDate b))
  - getTime (new_Date host (originalDate a)).

(** [[...period].sort(...)[0]]: the earliest date of a period. *)
Definition startOf (period : list DateString) : DateString :=
  let sortedPeriod := Array_sort byTimeAscending period in
  nth 0 sortedPeriod (ISODate 0).

(** The loop over the periods in chronological order,
    [for (let i = 0; i < chronologicalPeriods.length; i++)]: [count] is
    [chronologicalPeriods.length] and [periods] is what is left of the
    array from index [i] on. *)
Fixpoint historyLoop (count : nat) (periodStartDates : list DateString)
    (i : nat) (periods : list (list DateString))
    (history : list HistoryEntryWithDate) : list HistoryEntryWithDate :=
  match periods with
  | [] => history
  | period :: periods' =>
      let startDate := startOf period in
      let cycleLengthValue :=
        if (i =? count - 1)%nat then Str "In progress"
        else
          let currentStartDate := nth i periodStartDates (ISODate 0) in
          let nextStartDate := nth (i + 1) periodStartDates (ISODate 0) in
          let daysBetween :=
            Math_round_exact
              (Math_abs (div (getTime (new_Date host nextStartDate)
                              - getTime (new_Date host currentStartDate))
                             MS_PER_DAY)) in
          Num daysBetween in
      let historyEntry :=
        {| originalDate := startDate;
           rest := {| startDate := formatDate startDate;
                      cycleLength := cycleLengthValue;
                      periodLength := Z.of_nat (List.length period) |} |} in
      historyLoop count periodStartDates (S i) periods'
        (push history historyEntry)
  end.

(** [loadStatistics()]: the state it sets, [saved] being the dates of the
    rows the store returns. *)
Definition loadStatistics (saved : list DateString) : State :=
  if (List.length saved =? 0)%nat then
    {| completedCycles := 0;
       averageCycleLength := 0;
       averagePeriodLength := 0;
       cycleHistory := [] |}
  else
    let sortedDates := Array_sort (byTimeDescending host) saved in
    let periods := groupPeriods host sortedDates in
    let cycles := Z.max 0 (Z.of_nat (List.length periods) - 1) in
    let '(cycleLength, sortedDates') := getAverageCycleLength host sortedDates in
    let periodLengths := map (fun period => Z.of_nat (List.length period)) periods in
    let totalPeriodLength := fold_left (fun sum length => sum + length) periodLengths 0 in
    let avgPeriodLength :=
      Math_round_exact
        (div totalPeriodLength (Z.of_nat (List.length periodLengths))) in
    let chronologicalPeriods := rev periods in
    let periodStartDates := map startOf chronologicalPeriods in
    let periodStartDates := Array_sort byTimeAscending periodStartDates in
    let history :=
      historyLoop (List.length chronologicalPeriods) periodStartDates 0
        chronologicalPeriods [] in
    let history := Array_sort byOriginalDateDescending history in
    let cleanHistory := map rest history in
    {| completedCycles := cycles;
       averageCycleLength := cycleLength;
       averagePeriodLength := avgPeriodLength;
       cycleHistory := cleanHistory |}.

(** *** The history, read off the episodes *)

(** The row of the episode [p]; [newer] is the episode listed before it,
    if there is one. *)
Definition rowOf (newer : option (list DateString)) (p : list DateString)
    : CycleData :=
  {| startDate := toShortDateString (Spec.startTime host p);
     cycleLength :=
       match newer with
       | None => Str "In progress"
       | Some q =>
           Num (Math_round_exact
                  (Math_abs (div (Spec.startTime host q - Spec.startTime host p)
                                 MS_PER_DAY)))
       end;
     periodLength := Z.of_nat (List.length p) |}.

(** One row for each episode, most recent first. *)
Fixpoint rowsOf (newer : option (list DateString))
    (eps : list (list DateString)) : list CycleData :=
  match eps with
  | [] => []
  | p :: eps' => rowOf newer p :: rowsOf (Some p) eps'
  end.

(** The entry the loop builds for [period]; [next] is the period after
    it in chronological order, if there is one. *)
Definition entryOf (period : list DateString)
    (next : option (list DateString)) : HistoryEntryWithDate :=
  {| originalDate := startOf period;
     rest :=
       {| startDate := formatDate (startOf period);
          cycleLength :=
            match next with
            | None => Str "In progress"
            | Some q =>
                Num (Math_round_exact
                       (Math_abs (div (getTime (new_Date host (startOf q))
                                       - getTime (new_Date host (startOf period)))
                                      MS_PER_DAY)))
            end;
          periodLength := Z.of_nat (List.length period) |} |}.

(** The entries of the periods [l], in their order; [final] follows the
    last of them. *)
Fixpoint entriesOf (l : list (list DateString))
    (final : option (list DateString)) : list HistoryEntryWithDate :=
  match l with
  | [] => []
  | p :: l' =>
      entryOf p (match l' with [] => final | q :: _ => Some q end)
      :: entriesOf l' final
  end.

End Screen.

End StatsScreen.

(** The start of the episode [p] is a whole number of days from the
    epoch, as it is when the dates are in the form the store keeps. *)
Definition aligned (host : Host) (p : list DateString) : Prop :=
  exists k, Spec.startTime host p = k * MS_PER_DAY.

(** Six stored dates in four episodes, for the examples. *)
Definition sixDates : list DateString :=
  [iso 2024 1 1; iso 2024 1 2; iso 2024 1 19; iso 2024 2 6; iso 2024 2 7;
   iso 2024 2 18].

(* ================================================================= *)
(** ** Arithmetic of the runtime *)

(** [Math.round] gives the integer nearest to the value of its argument,
    a half going up. *)
Lemma Math_round_valueOf (x : float) :
  Math_round x = Spec.round (valueOf x).
Proof.
  unfold Math_round, valueOf, Spec.round.
  destruct (Prim2SF x) as [s|s| |s m e]; try reflexivity.
  cbv zeta. set (n := if s then Z.neg m else Z.pos m).
  destruct (0 <=? e) eqn:E.
  - unfold Qplus, inject_Z, Qfloor. cbn [Qnum Qden].
    change (Z.pos (1 * 2)) with 2.
    apply (Z.div_unique _ _ _ 1); lia.
  - apply Z.leb_gt in E.
    assert (Hp : 0 < 2 ^ (- e)) by (apply Z.pow_pos_nonneg; lia).
    unfold Qplus, Qfloor. cbn [Qnum Qden].
    rewrite Pos2Z.inj_mul, Z2Pos.id by assumption.
    replace (1 - e) with (Z.succ (- e)) by lia.
    rewrite Z.pow_succ_r by lia.
    f_equal; lia.
Qed.

Lemma MS_PER_DAY_pos : 0 < MS_PER_DAY.
Proof. reflexivity. Qed.

Lemma Math_floor_div (a : Z) :
  Math_floor (div a MS_PER_DAY) = a / MS_PER_DAY.
Proof.
  unfold Math_floor, div, Qdiv, Qinv, Qmult, inject_Z, Qfloor. simpl.
  now rewrite Z.mul_1_r.
Qed.

Lemma Math_ceil_div (a : Z) :
  Math_ceil (div a MS_PER_DAY) = - ((- a) / MS_PER_DAY).
Proof.
  unfold Math_ceil, Qceiling, div, Qdiv, Qinv, Qmult, Qopp, inject_Z, Qfloor.
  simpl. now rewrite Z.mul_1_r.
Qed.

Lemma dayDiff_le_7 (a : Z) :
  Qle_bool (Math_abs (div a MS_PER_DAY)) 7 = (Z.abs a <=? 7 * MS_PER_DAY).
Proof.
  unfold Math_abs, div, Qdiv, Qinv, Qmult, Qabs, inject_Z, Qle_bool. simpl.
  rewrite !Z.mul_1_r. reflexivity.
Qed.

(* ================================================================= *)
(** ** Sorting *)

Section SortFacts.

Context {A : Type}.
Variable key : A -> Z.

(** The comparator of the service: larger key first. *)
Let cmp (a b : A) : Z := key b - key a.

Lemma insert_perm (x : A) (l : list A) :
  Permutation (insert cmp x l) (x :: l).
Proof.
  induction l as [|y l IH]; simpl; [reflexivity|].
  destruct (cmp x y <=? 0); [reflexivity|].
  rewrite IH. apply perm_swap.
Qed.

Lemma Array_sort_perm (l : list A) : Permutation (Array_sort cmp l) l.
Proof.
  induction l as [|x l IH]; simpl; [constructor|].
  rewrite insert_perm. now constructor.
Qed.

Lemma insert_descending (x : A) (l : list A) :
  descending key l -> descending key (insert cmp x l).
Proof.
  unfold descending, before.
  induction l as [|y l IH]; simpl; intros Hl.
  - repeat constructor.
  - inversion Hl as [|? ? Hl' Hy]; subst.
    destruct (cmp x y <=? 0) eqn:E; unfold cmp in E.
    + apply Z.leb_le in E. constructor; [assumption|].
      constructor; [lia|].
      eapply Forall_impl; [|exact Hy]. simpl. intros; lia.
    + apply Z.leb_gt in E. constructor; [now apply IH|].
      eapply Permutation_Forall; [symmetry; apply insert_perm|].
      constructor; [lia | assumption].
Qed.

Lemma Array_sort_descending (l : list A) : descending key (Array_sort cmp l).
Proof.
  induction l as [|x l IH]; simpl.
  - constructor.
  - now apply insert_descending.
Qed.

(** Stability: an array that is already in order is left as it is. *)
Lemma Array_sort_fixed (l : list A) : descending key l -> Array_sort cmp l = l.
Proof.
  unfold descending, before.
  induction l as [|x l IH]; simpl; intros Hl; [reflexivity|].
  inversion Hl as [|? ? Hl' Hx]; subst.
  rewrite (IH Hl'). destruct l as [|y l]; simpl; [reflexivity|].
  inversion Hx; subst. unfold cmp.
  replace (key y - key x <=? 0) with true; [reflexivity|].
  symmetry. apply Z.leb_le. lia.
Qed.

Lemma Array_sort_idempotent (l : list A) :
  Array_sort cmp (Array_sort cmp l) = Array_sort cmp l.
Proof. apply Array_sort_fixed, Array_sort_descending. Qed.

Lemma descending_app (l1 l2 : list A) :
  descending key (l1 ++ l2) -> descending key l1 /\ descending key l2.
Proof.
  unfold descending.
  induction l1 as [|x l1 IH]; simpl; intros H.
  - split; [constructor | assumption].
  - inversion H as [|? ? H' Hx]; subst.
    destruct (IH H') as [H1 H2]. split; [|assumption].
    constructor; [assumption|].
    apply Forall_app in Hx. tauto.
Qed.

Lemma descending_concat (ls : list (list A)) :
  descending key (List.concat ls) -> Forall (descending key) ls.
Proof.
  induction ls as [|l ls IH]; simpl; intros H; [constructor|].
  apply descending_app in H. destruct H. constructor; auto.
Qed.

Lemma fold_min_start (l : list A) (a b : Z) :
  b <= a ->
  Z.min b (fold_right (fun s m => Z.min (key s) m) a l)
  = fold_right (fun s m => Z.min (key s) m) b l.
Proof.
  intros Hab. induction l as [|z l IH]; simpl; [lia|].
  rewrite <- IH. lia.
Qed.

(** In a descending array the last element has the least key. *)
Lemma descending_last_min (x : A) (l : list A) (dflt : A) :
  descending key (x :: l) ->
  key (last (x :: l) dflt) = fold_right (fun s m => Z.min (key s) m) (key x) l.
Proof.
  unfold descending, before. revert x.
  induction l as [|y l IH]; intros x H; [reflexivity|].
  inversion H as [|? ? H' Hx]; subst. inversion Hx; subst.
  change (last (x :: y :: l) dflt) with (last (y :: l) dflt).
  rewrite (IH y H'). simpl. symmetry. now apply fold_min_start.
Qed.

End SortFacts.

(* ================================================================= *)
(** ** Episode grouping *)

Section GroupingFacts.

Variable host : Host.

Local Abbreviation timeOf := (Spec.timeOf host).
Local Abbreviation sortDates := (Array_sort (byTimeDescending host)).

Lemma sortDates_perm (l : list DateString) : Permutation (sortDates l) l.
Proof. exact (Array_sort_perm timeOf l). Qed.

Lemma sortDates_descending (l : list DateString) :
  descending timeOf (sortDates l).
Proof. exact (Array_sort_descending timeOf l). Qed.

Lemma sortDates_fixed (l : list DateString) :
  descending timeOf l -> sortDates l = l.
Proof. exact (Array_sort_fixed timeOf l). Qed.

(** One step of the loop: the array is cut where two neighbours are more
    than seven days apart. *)
Lemma groupLoop_cons (prev d : DateString) (rest : list DateString)
    (periods : list (list DateString)) (currentPeriod : list DateString) :
  groupLoop host prev (d :: rest) periods currentPeriod
  = if Z.abs (timeOf d - timeOf prev) <=? 7 * MS_PER_DAY
    then groupLoop host d rest periods (currentPeriod ++ [d])
    else groupLoop host d rest (periods ++ [currentPeriod]) [d].
Proof. cbn [groupLoop]. rewrite dayDiff_le_7. reflexivity. Qed.

(** The grouping only cuts the array: laid end to end, the periods are
    the array again. *)
Lemma concat_groupLoop (rest : list DateString) :
  forall prev periods currentPeriod,
    List.concat (groupLoop host prev rest periods currentPeriod)
    = List.concat periods ++ currentPeriod ++ rest.
Proof.
  induction rest as [|d rest IH]; intros prev periods cur; simpl.
  - unfold push. rewrite concat_app. simpl. now rewrite !app_nil_r.
  - destruct (Qle_bool _ 7); rewrite IH; unfold push.
    + now rewrite <- app_assoc.
    + rewrite concat_app. simpl. now rewrite app_nil_r, <- app_assoc.
Qed.

Lemma concat_groupPeriods (sortedDates : list DateString) :
  List.concat (groupPeriods host sortedDates) = sortedDates.
Proof.
  destruct sortedDates as [|d0 rest]; [reflexivity|].
  unfold groupPeriods. now rewrite concat_groupLoop.
Qed.

Lemma concat_episodes (dates : list DateString) :
  List.concat (episodes host dates) = sortDates dates.
Proof. apply concat_groupPeriods. Qed.

(** No period is empty. *)
Lemma groupLoop_nonempty (rest : list DateString) :
  forall prev periods currentPeriod,
    Forall (fun p => p <> []) periods -> currentPeriod <> [] ->
    Forall (fun p => p <> []) (groupLoop host prev rest periods currentPeriod).
Proof.
  induction rest as [|d rest IH]; intros prev periods cur Hp Hc; simpl.
  - unfold push. apply Forall_app. split; [assumption|]. now constructor.
  - destruct (Qle_bool _ 7); apply IH; unfold push.
    + assumption.
    + now destruct cur.
    + apply Forall_app. split; [assumption|]. now constructor.
    + discriminate.
Qed.

Lemma episodes_nonempty (dates : list DateString) :
  Forall (fun p => p <> []) (episodes host dates).
Proof.
  unfold episodes, groupPeriods.
  destruct (sortDates dates) as [|d0 rest]; [constructor|].
  apply groupLoop_nonempty; [constructor | discriminate].
Qed.

(** Inside a period the dates run from the most recent to the earliest. *)
Lemma episodes_descending (dates : list DateString) :
  Forall (descending timeOf) (episodes host dates).
Proof.
  apply descending_concat. rewrite concat_episodes.
  apply sortDates_descending.
Qed.

(** The last member of a period, which the service takes as its start, is
    its earliest date. *)
Lemma lastOf_startTime (dates p : list DateString) :
  In p (episodes host dates) ->
  getTime (new_Date host (lastOf p)) = Spec.startTime host p.
Proof.
  intros Hin.
  pose proof (episodes_nonempty dates) as Hne.
  pose proof (episodes_descending dates) as Hd.
  rewrite Forall_forall in Hne, Hd.
  specialize (Hne p Hin). specialize (Hd p Hin).
  destruct p as [|x l]; [congruence|].
  exact (descending_last_min timeOf x l (ISODate 0) Hd).
Qed.

Lemma episodes_short (dates : list DateString) :
  (List.length dates < 2)%nat -> (List.length (episodes host dates) < 2)%nat.
Proof.
  destruct dates as [|a [|b l]]; simpl; intros H;
    [cbv; lia | cbv; lia | lia].
Qed.

End GroupingFacts.

(* ================================================================= *)
(** ** Average cycle length *)

Section AverageFacts.

Variable host : Host.

Local Abbreviation timeOf := (Spec.timeOf host).

Lemma gaps_cons (newer older : list DateString) (rest : list (list DateString)) :
  Spec.gaps host (newer :: older :: rest)
  = Spec.gapDays host newer older :: Spec.gaps host (older :: rest).
Proof. reflexivity. Qed.

(** The loop, started at index [k + 1] with [k] gaps already added, adds
    the next [5 - k] gaps (or as many as there are) in order. *)
Lemma averageLoop_sums (rest : list (list DateString)) :
  forall (before : list DateString) (k : nat) (wt ws : float),
    Forall (fun p => timeOf (lastOf p) = Spec.startTime host p) (before :: rest) ->
    let gs := firstn (5 - k) (Spec.gaps host (before :: rest)) in
    averageLoop host (S k) before rest wt ws k
    = (Spec.sumFrom (fun k g => (Number_of_Z g * Spec.weight k)%float) k gs wt,
       Spec.sumFrom (fun k _ => Spec.weight k) k gs ws,
       (k + List.length gs)%nat).
Proof.
  induction rest as [|period rest IH]; intros before k wt ws Hstart gs.
  - subst gs. simpl. rewrite firstn_nil. simpl. now rewrite Nat.add_0_r.
  - subst gs. rewrite gaps_cons.
    inversion Hstart as [|? ? Hb Hrest]; subst.
    pose proof Hrest as Hrest'.
    inversion Hrest' as [|? ? Hp _]; subst.
    cbn [averageLoop].
    destruct (S k <? 6)%nat eqn:E.
    + apply Nat.ltb_lt in E.
      replace (5 - k)%nat with (S (5 - S k)) by lia.
      cbn [firstn Spec.sumFrom List.length].
      rewrite IH by assumption. cbv zeta.
      rewrite Math_floor_div.
      unfold Spec.gapDays, Spec.weight, Spec.timeOf in *.
      rewrite Hb, Hp.
      replace (k + S (List.length (firstn (5 - S k) (Spec.gaps host (period :: rest)))))%nat
        with (S k + List.length (firstn (5 - S k) (Spec.gaps host (period :: rest))))%nat
        by lia.
      reflexivity.
    + apply Nat.ltb_ge in E.
      replace (5 - k)%nat with 0%nat by lia.
      simpl. now rewrite Nat.add_0_r.
Qed.

End AverageFacts.

(** Only the first six episodes, hence five gaps, enter the estimate. *)
Lemma gaps_firstn (host : Host) (n : nat) :
  forall eps, Spec.gaps host (firstn (S n) eps) = firstn n (Spec.gaps host eps).
Proof.
  induction n as [|n IH]; intros [|a [|b r]]; try reflexivity.
  change (firstn (S (S n)) (a :: b :: r)) with (a :: b :: firstn n r).
  rewrite !gaps_cons.
  change (b :: firstn n r) with (firstn (S n) (b :: r)).
  rewrite IH. reflexivity.
Qed.

Lemma estimate_window (host : Host) (eps : list (list DateString)) :
  Spec.estimateCycleLength host eps
  = Spec.estimateCycleLength host (firstn 6 eps).
Proof.
  unfold Spec.estimateCycleLength.
  now rewrite gaps_firstn, firstn_firstn.
Qed.

(** C2.  [estimateCycleLength] returns 28 for every list with fewer than
    two dates, and for every list whose grouping yields fewer than two
    episodes (no gap to average). *)
Theorem C2_default_28 (host : Host) (dates : list DateString) :
  (List.length dates < 2)%nat \/ (List.length (episodes host dates) < 2)%nat ->
  fst (getAverageCycleLength host dates) = 28.
Proof.
  intros H. unfold getAverageCycleLength.
  destruct (List.length dates <? 2)%nat eqn:E; [reflexivity|].
  apply Nat.ltb_ge in E.
  destruct H as [H|H]; [lia|].
  unfold episodes in H.
  destruct (groupPeriods host (Array_sort (byTimeDescending host) dates))
    as [|first [|second rest]]; simpl in H; try lia; reflexivity.
Qed.

Lemma C2_default_28_witness :
  fst (getAverageCycleLength utc
         [iso 2024 1 1; iso 2024 1 2; iso 2024 1 3; iso 2024 1 4; iso 2024 1 5])
  = 28.
Proof. apply C2_default_28. right. vm_compute. lia. Defined.

(** C1, as the code has it.  For every date list that groups into at
    least two episodes, [estimateCycleLength] is the integer nearest, a
    half going up, to the double [sum(gap_k * w_k) / sum(w_k)] over the
    (at most) five most recent gaps between episode starts, with
    [w_k = max(1 - k*0.2, 0.2)]: the weights, the products, the sums
    (each taken from gap 0 on) and the quotient are the binary64 ones.
    Episodes beyond the sixth do not count. *)
Theorem C1_weighted_average (host : Host) (dates : list DateString) :
  (2 <= List.length (episodes host dates))%nat ->
  fst (getAverageCycleLength host dates)
  = Spec.estimateCycleLength host (episodes host dates)
  /\ Spec.estimateCycleLength host (episodes host dates)
     = Spec.estimateCycleLength host (firstn 6 (episodes host dates)).
Proof.
  intros H. split; [|apply estimate_window]. unfold getAverageCycleLength.
  destruct (List.length dates <? 2)%nat eqn:E.
  { apply Nat.ltb_lt in E. apply (episodes_short host) in E. lia. }
  pose proof (fun p => lastOf_startTime host dates p) as Hstart.
  unfold episodes in *.
  destruct (groupPeriods host (Array_sort (byTimeDescending host) dates))
    as [|first [|second rest]]; simpl in H; try lia.
  rewrite averageLoop_sums.
  2:{ apply Forall_forall. intros p Hp. now apply Hstart. }
  rewrite gaps_cons. cbn [fst].
  unfold Spec.estimateCycleLength, Spec.weightedTotal, Spec.weightSum.
  rewrite gaps_cons, <- Math_round_valueOf. reflexivity.
Qed.

Lemma C1_weighted_average_witness :
  fst (getAverageCycleLength utc
         [iso 2024 1 1; iso 2024 1 2; iso 2024 1 19; iso 2024 2 6;
          iso 2024 2 7; iso 2024 2 18])
  = Spec.estimateCycleLength utc
      (episodes utc
         [iso 2024 1 1; iso 2024 1 2; iso 2024 1 19; iso 2024 2 6;
          iso 2024 2 7; iso 2024 2 18]).
Proof. apply C1_weighted_average. vm_compute. lia. Defined.

(** The claim as the specification words it, with the formula taken
    exactly, fails on a tie.  The gaps 12, 18 and 18 under the weights 1,
    0.8 and 0.6 average to 15.5 exactly, which rounds to 16; in doubles
    the total 37.199999999999996 over 2.4 is 15.499999999999998, and the
    code returns 15. *)
Lemma C1_counterexample :
  Spec.gaps utc (episodes utc sixDates) = [12; 18; 18]
  /\ fst (getAverageCycleLength utc sixDates) = 15
  /\ Spec.estimateExactly utc (episodes utc sixDates) = 16
  /\ fst (getAverageCycleLength utc sixDates)
     <> Spec.estimateExactly utc (episodes utc sixDates).
Proof. vm_compute. repeat split; congruence. Qed.

(** C7.  Grouping is idempotent: the episodes of the flattened episodes
    of a date list are the episodes of the list (the flattened episodes
    are already in order, so sorting them again changes nothing). *)
Theorem C7_grouping_idempotent (host : Host) (dates : list DateString) :
  episodes host (List.concat (episodes host dates)) = episodes host dates
  /\ Array_sort (byTimeDescending host) (List.concat (episodes host dates))
     = List.concat (episodes host dates).
Proof.
  rewrite concat_episodes. unfold episodes.
  assert (H : Array_sort (byTimeDescending host)
                (Array_sort (byTimeDescending host) dates)
              = Array_sort (byTimeDescending host) dates)
    by apply sortDates_fixed, sortDates_descending.
  split; [now rewrite H | exact H].
Qed.

(* ================================================================= *)
(** ** Calendar arithmetic *)

Section DateFacts.

Variable host : Host.

(** [d.setDate(d.getDate() + n)] moves [d] by [n] days on the local
    calendar and keeps its local time of day. *)
Lemma setDate_getDate (t n : Z) :
  setDate host t (getDate host t + n) = addLocalDays host t n.
Proof.
  unfold setDate, getDate, addLocalDays, Day, TimeWithinDay. f_equal.
  pose proof (Z.div_mod (LocalTime host t) MS_PER_DAY) as H.
  assert (Hms : MS_PER_DAY <> 0) by discriminate.
  specialize (H Hms). lia.
Qed.

(** Where the host keeps the day, the rendered day moves with the local
    calendar. *)
Lemma toLocaleDateString_addLocalDays (t n : Z) :
  keepsDay host ->
  toLocaleDateString host (addLocalDays host t n)
  = RenderedDay (Day (LocalTime host t) + n).
Proof.
  intros Hk. unfold toLocaleDateString, addLocalDays. rewrite Hk. f_equal.
  unfold Day. apply Z.div_add. discriminate.
Qed.

Lemma getOvulationDay_eq (startDate : DateString) (cycleLength : option Z) :
  getOvulationDay host startDate cycleLength
  = toLocaleDateString host
      (addLocalDays host (new_Date host startDate) (orDefault28 cycleLength - 14)).
Proof. unfold getOvulationDay. now rewrite setDate_getDate. Qed.

Lemma getFertilityWindow_eq (startDate : DateString) (cycleLength : option Z) :
  let ov := getOvulationDay host startDate (Some (orDefault28 cycleLength)) in
  getFertilityWindow host startDate cycleLength
  = {| start :=
         match new_Date_rendered host ov with
         | Some ovulationDate =>
             toLocaleDateString host (addLocalDays host ovulationDate (- 5))
         | None => InvalidDate
         end;
       end_ := ov;
       ovulationDay := ov |}.
Proof.
  unfold getFertilityWindow. cbv zeta.
  destruct (new_Date_rendered host
              (getOvulationDay host startDate (Some (orDefault28 cycleLength))))
    as [ovulationDate|]; [|reflexivity].
  replace (getDate host ovulationDate - 5)
    with (getDate host ovulationDate + (- 5)) by lia.
  now rewrite setDate_getDate.
Qed.

Lemma orDefault28_idem (cycleLength : option Z) :
  orDefault28 (Some (orDefault28 cycleLength)) = orDefault28 cycleLength.
Proof.
  destruct cycleLength as [n|]; simpl; [|reflexivity].
  destruct (n =? 0) eqn:E; simpl; [reflexivity|]. now rewrite E.
Qed.

Lemma orDefault28_nonzero (L : Z) : L <> 0 -> orDefault28 (Some L) = L.
Proof.
  intros HL. simpl. destruct (L =? 0) eqn:E; [|reflexivity].
  apply Z.eqb_eq in E. contradiction.
Qed.

(** The forecast of [getPrediction]: the instant, and what is made of
    it. *)
Lemma getPrediction_eq (now : Z) (startDate : DateString)
    (allDates : list DateString) :
  let cl := fst (getAverageCycleLength host allDates) in
  let forecast := addLocalDays host (new_Date host startDate) cl in
  fst (getPrediction host now startDate allDates)
  = {| days := Math_ceil (div (forecast - now) MS_PER_DAY);
       date := toLocaleDateString host forecast;
       cycleLength := cl |}.
Proof.
  unfold getPrediction.
  destruct (getAverageCycleLength host allDates) as [n after].
  cbn [fst]. rewrite setDate_getDate. reflexivity.
Qed.

(** The window start, where the host reads the ovulation day back. *)
Lemma window_start (day : Z) :
  keepsDay host -> readsBackItsDays host ->
  match new_Date_rendered host (RenderedDay day) with
  | Some ovulationDate =>
      toLocaleDateString host (addLocalDays host ovulationDate (- 5))
  | None => InvalidDate
  end = RenderedDay (day - 5).
Proof.
  intros Hk Hr. destruct (Hr day) as (t & Ht & Hday).
  cbn [new_Date_rendered]. rewrite Ht.
  rewrite toLocaleDateString_addLocalDays by assumption.
  rewrite Hday. f_equal.
Qed.

End DateFacts.

(** *** What the hosts above do *)


Lemma fixedOffset_keepsDay (offset : Z) : keepsDay (fixedOffset offset).
Proof.
  intros l. unfold UTC, LocalTime, fixedOffset.
  cbn [LocalTZA_utc LocalTZA_local]. f_equal. lia.
Qed.

Lemma fixedOffset_readsBack (offset : Z) : readsBackItsDays (fixedOffset offset).
Proof.
  intros day. exists (day * MS_PER_DAY - offset). split; [reflexivity|].
  unfold LocalTime, Day, fixedOffset. cbn [LocalTZA_utc].
  replace (day * MS_PER_DAY - offset + offset) with (day * MS_PER_DAY) by lia.
  apply Z.div_mul. discriminate.
Qed.

(** A stored date, read as midnight UTC, falls on the day it names
    wherever local time is not behind UTC. *)
Lemma onNamedDay_east (host : Host) (day : Z) :
  (forall t, 0 <= LocalTZA_utc host t < MS_PER_DAY) ->
  onNamedDay host (ISODate day).
Proof.
  intros H. unfold onNamedDay, LocalTime, Day. cbn [new_Date dayOf].
  specialize (H (day * MS_PER_DAY)).
  symmetry. apply (Z.div_unique _ _ _ (LocalTZA_utc host (day * MS_PER_DAY))); lia.
Qed.

(** Where local time is behind UTC it falls on the day before. *)
Lemma dayBefore_west (host : Host) (day : Z) :
  (forall t, - MS_PER_DAY <= LocalTZA_utc host t < 0) ->
  Day (LocalTime host (new_Date host (ISODate day))) = day - 1.
Proof.
  intros H. unfold LocalTime, Day. cbn [new_Date].
  specialize (H (day * MS_PER_DAY)).
  symmetry.
  apply (Z.div_unique _ _ _
           (LocalTZA_utc host (day * MS_PER_DAY) + MS_PER_DAY)); lia.
Qed.

(** A host that reads a rendered day back as the local midnight of that
    day reads its days back. *)
Lemma readBack_midnight (host : Host) :
  keepsDay host ->
  (forall day, readBack host day = Some (UTC host (day * MS_PER_DAY))) ->
  readsBackItsDays host.
Proof.
  intros Hk Hr day. exists (UTC host (day * MS_PER_DAY)).
  split; [apply Hr|]. rewrite Hk. unfold Day. apply Z.div_mul. discriminate.
Qed.

(** A host with daylight saving keeps the day when the hour its clocks
    skip, and the hour they show in its place, lie within one day. *)
Lemma seasonal_keepsDay (winter summer from till : Z) :
  winter <= summer ->
  from + (summer - winter) <= till ->
  Day (from + winter) = Day (from + 2 * summer - winter - 1) ->
  keepsDay (seasonal winter summer from till).
Proof.
  intros Hws Hft Hd l. unfold LocalTime, UTC, seasonal.
  cbn [LocalTZA_utc LocalTZA_local].
  destruct (l <? from + summer) eqn:E1.
  - apply Z.ltb_lt in E1.
    destruct ((from <=? l - winter) && (l - winter <? till)) eqn:E2.
    + apply andb_true_iff in E2. destruct E2 as [E2 E3].
      apply Z.leb_le in E2. apply Z.ltb_lt in E3.
      assert (H1 : Day (from + winter) <= Day l)
        by (apply Z.div_le_mono; [reflexivity | lia]).
      assert (H2 : Day l <= Day (l - winter + summer))
        by (apply Z.div_le_mono; [reflexivity | lia]).
      assert (H3 : Day (l - winter + summer)
                   <= Day (from + 2 * summer - winter - 1))
        by (apply Z.div_le_mono; [reflexivity | lia]).
      lia.
    + f_equal. lia.
  - apply Z.ltb_ge in E1.
    destruct (l <? till + summer) eqn:E2.
    + apply Z.ltb_lt in E2.
      replace ((from <=? l - summer) && (l - summer <? till)) with true.
      * f_equal. lia.
      * symmetry. apply andb_true_iff. split; [apply Z.leb_le | apply Z.ltb_lt]; lia.
    + apply Z.ltb_ge in E2.
      replace ((from <=? l - winter) && (l - winter <? till)) with false.
      * f_equal. lia.
      * symmetry. apply andb_false_iff. right. apply Z.ltb_ge. lia.
Qed.

Lemma seasonal_readsBack (winter summer from till : Z) :
  keepsDay (seasonal winter summer from till) ->
  readsBackItsDays (seasonal winter summer from till).
Proof. intros Hk. apply readBack_midnight; [exact Hk | reflexivity]. Qed.

Lemma berlin2024_keepsDay : keepsDay berlin2024.
Proof.
  apply seasonal_keepsDay;
    [vm_compute; discriminate | vm_compute; discriminate | reflexivity].
Qed.

Lemma newYork2024_keepsDay : keepsDay newYork2024.
Proof.
  apply seasonal_keepsDay;
    [vm_compute; discriminate | vm_compute; discriminate | reflexivity].
Qed.

(** In Berlin a stored date falls on the day it names. *)
Lemma berlin2024_onNamedDay (day : Z) : onNamedDay berlin2024 (ISODate day).
Proof.
  apply onNamedDay_east. intros t. unfold berlin2024, seasonal.
  cbn [LocalTZA_utc].
  destruct (_ && _); vm_compute; (split; [discriminate | reflexivity]).
Qed.

(** C6, as the code has it.  For every cycle length [L] other than 0, on
    a host that keeps the day and for a start date whose instant falls,
    in local time, on the day it names: [ovulationDay(start, L)] is the
    date [start + (L - 14)] days, the rendering of the instant [L - 14]
    local days after the start; the window ends on the ovulation day; and
    where the host reads its own rendering back, the window starts five
    days before it. *)
Theorem C6_ovulation_and_window (host : Host) (startDate : DateString) (L : Z) :
  L <> 0 ->
  keepsDay host ->
  onNamedDay host startDate ->
  let ov := getOvulationDay host startDate (Some L) in
  let w := getFertilityWindow host startDate (Some L) in
  ov = RenderedDay (dayOf startDate + (L - 14))
  /\ ov = toLocaleDateString host
            (addLocalDays host (new_Date host startDate) (L - 14))
  /\ end_ w = ov
  /\ ovulationDay w = ov
  /\ (readsBackItsDays host ->
      start w = RenderedDay (dayOf startDate + (L - 14) - 5)).
Proof.
  intros HL Hk Hs ov w.
  pose proof (orDefault28_nonzero L HL) as E.
  assert (Hov : ov = RenderedDay (dayOf startDate + (L - 14))).
  { subst ov. rewrite getOvulationDay_eq, E.
    rewrite toLocaleDateString_addLocalDays by assumption.
    now rewrite Hs. }
  assert (Hw : w = {| start :=
                        match new_Date_rendered host ov with
                        | Some ovulationDate =>
                            toLocaleDateString host
                              (addLocalDays host ovulationDate (- 5))
                        | None => InvalidDate
                        end;
                      end_ := ov; ovulationDay := ov |}).
  { subst w ov. rewrite getFertilityWindow_eq. cbv zeta. now rewrite E. }
  split; [exact Hov|].
  split; [subst ov; now rewrite getOvulationDay_eq, E|].
  split; [now rewrite Hw|].
  split; [now rewrite Hw|].
  intros Hr. rewrite Hw. cbn [start]. rewrite Hov.
  now apply window_start.
Qed.

Lemma C6_ovulation_and_window_witness :
  getOvulationDay utc (iso 2024 1 1) (Some 28) = rendered 2024 1 15
  /\ start (getFertilityWindow utc (iso 2024 1 1) (Some 28)) = rendered 2024 1 10.
Proof.
  assert (H : 28 <> 0) by discriminate.
  assert (Hs : onNamedDay utc (iso 2024 1 1)) by reflexivity.
  pose proof (C6_ovulation_and_window utc (iso 2024 1 1) 28 H
                (fixedOffset_keepsDay 0) Hs) as HC.
  cbv zeta in HC. destruct HC as (Hov & _ & _ & _ & Hstart).
  split; [rewrite Hov | rewrite (Hstart (fixedOffset_readsBack 0))];
    reflexivity.
Defined.

(** The claim as the specification words it fails at [L = 0]: the code
    answers with the date 14 days after the start, not 14 days before. *)
Lemma C6_counterexample :
  getOvulationDay utc (iso 2024 1 15) (Some 0)
  <> RenderedDay (dayOf (iso 2024 1 15) + (0 - 14))
  /\ getOvulationDay utc (iso 2024 1 15) (Some 0) = rendered 2024 1 29
  /\ RenderedDay (dayOf (iso 2024 1 15) + (0 - 14)) = rendered 2024 1 1.
Proof. vm_compute. repeat split; congruence. Qed.


(* ================================================================= *)
(** ** Forecast and cycle day *)

Lemma ceil_days_bounds (a : Z) :
  MS_PER_DAY * (Math_ceil (div a MS_PER_DAY) - 1) < a
  <= MS_PER_DAY * Math_ceil (div a MS_PER_DAY).
Proof.
  rewrite Math_ceil_div.
  pose proof (Z.div_mod (- a) MS_PER_DAY) as H.
  pose proof (Z.mod_pos_bound (- a) MS_PER_DAY MS_PER_DAY_pos) as Hm.
  assert (Hms : MS_PER_DAY <> 0) by discriminate.
  specialize (H Hms). lia.
Qed.

Lemma floor_days_bounds (a : Z) :
  MS_PER_DAY * Math_floor (div a MS_PER_DAY) <= a
  < MS_PER_DAY * (Math_floor (div a MS_PER_DAY) + 1).
Proof.
  rewrite Math_floor_div.
  pose proof (Z.div_mod a MS_PER_DAY) as H.
  pose proof (Z.mod_pos_bound a MS_PER_DAY MS_PER_DAY_pos) as Hm.
  assert (Hms : MS_PER_DAY <> 0) by discriminate.
  specialize (H Hms). lia.
Qed.

(** What the forecast is on every host: the cycle length is the estimate;
    the date is the rendering of the instant that many local days after
    the start instant; [days] is the ceiling of the time from [now] to
    that instant, in days, negative when it lies a day or more in the
    past.  Where the start instant falls on the day it names, the date is
    the start plus the cycle length. *)
Lemma getPrediction_forecast (host : Host) (now : Z) (startDate : DateString)
    (allDates : list DateString) :
  let cl := fst (getAverageCycleLength host allDates) in
  let forecast := addLocalDays host (new_Date host startDate) cl in
  let r := fst (getPrediction host now startDate allDates) in
  cycleLength r = cl
  /\ date r = toLocaleDateString host forecast
  /\ MS_PER_DAY * (days r - 1) < forecast - now <= MS_PER_DAY * days r
  /\ (days r < 0 <-> forecast - now <= - MS_PER_DAY)
  /\ (keepsDay host ->
      date r = RenderedDay (Day (LocalTime host (new_Date host startDate)) + cl))
  /\ (keepsDay host -> onNamedDay host startDate ->
      date r = RenderedDay (dayOf startDate + cl)).
Proof.
  intros cl forecast r.
  pose proof (getPrediction_eq host now startDate allDates) as Hr.
  cbv zeta in Hr. fold cl in Hr. fold forecast in Hr. fold r in Hr.
  rewrite Hr. cbn [days date cycleLength].
  pose proof (ceil_days_bounds (forecast - now)) as Hb.
  assert (Hd : keepsDay host ->
               toLocaleDateString host forecast
               = RenderedDay (Day (LocalTime host (new_Date host startDate)) + cl)).
  { intros Hk. subst forecast. now apply toLocaleDateString_addLocalDays. }
  split; [reflexivity|]. split; [reflexivity|].
  split; [exact Hb|].
  split; [change MS_PER_DAY with 86400000 in *; lia|].
  split; [exact Hd|].
  intros Hk Hs. rewrite (Hd Hk). now rewrite Hs.
Qed.

(** Behind UTC the forecast is a day short of the start plus the cycle
    length, for every stored start date. *)
Lemma forecast_a_day_short (host : Host) (now day : Z)
    (allDates : list DateString) :
  keepsDay host ->
  (forall t, - MS_PER_DAY <= LocalTZA_utc host t < 0) ->
  let r := fst (getPrediction host now (ISODate day) allDates) in
  date r = RenderedDay (dayOf (ISODate day) + cycleLength r - 1).
Proof.
  intros Hk Hw r.
  pose proof (getPrediction_forecast host now (ISODate day) allDates) as H.
  cbv zeta in H. destruct H as (Hcl & _ & _ & _ & Hd & _).
  subst r. rewrite (Hd Hk), Hcl, dayBefore_west by assumption.
  cbn [dayOf]. f_equal. lia.
Qed.

(** C4, where the code departs from it.  On a host five hours behind UTC
    the stored start '2024-01-29', read as midnight UTC, is an instant of
    the evening of 28 January, and the local calendar arithmetic that
    follows keeps that day: with a cycle length of 28 the forecast is
    rendered as 25 February, one day short of the start plus 28 days.  On
    a host on UTC the same call gives 26 February. *)
Theorem C4_prediction :
  let west := fixedOffset (- 5 * hour) in
  let startDate := iso 2024 1 29 in
  let allDates := [iso 2024 1 1; iso 2024 1 29] in
  let now := new_Date utc (iso 2024 2 1) in
  let r := fst (getPrediction west now startDate allDates) in
  cycleLength r = 28
  /\ date r = rendered 2024 2 25
  /\ RenderedDay (dayOf startDate + cycleLength r) = rendered 2024 2 26
  /\ date r <> RenderedDay (dayOf startDate + cycleLength r)
  /\ date (fst (getPrediction utc now startDate allDates))
     = RenderedDay (dayOf startDate + cycleLength r).
Proof. vm_compute. repeat split; congruence. Qed.

(** C5.  [cycleDayOf] is [floor((reference - start) in days) + 1], not
    clamped: 1 on the start day itself, 15 a fortnight later, and at most 0
    when the reference date precedes the start. *)
Theorem C5_cycle_day (host : Host) (now : Z) (startDate referenceDate : DateString) :
  let diff := new_Date host referenceDate - new_Date host startDate in
  let day := getCurrentCycleDay host now startDate (Some referenceDate) in
  day = diff / MS_PER_DAY + 1
  /\ MS_PER_DAY * (day - 1) <= diff < MS_PER_DAY * day
  /\ getCurrentCycleDay host now startDate (Some startDate) = 1
  /\ (diff < 0 -> day <= 0)
  /\ getCurrentCycleDay host now (iso 2024 1 1) (Some (iso 2024 1 1)) = 1
  /\ getCurrentCycleDay host now (iso 2024 1 1) (Some (iso 2024 1 15)) = 15.
Proof.
  intros diff day.
  assert (Hd : day = Math_floor (div diff MS_PER_DAY) + 1) by reflexivity.
  pose proof (floor_days_bounds diff) as Hb.
  split; [rewrite Hd, Math_floor_div; reflexivity|].
  split; [rewrite Hd; lia|].
  split; [unfold getCurrentCycleDay, getTime; rewrite Z.sub_diag; reflexivity|].
  split; [|split; reflexivity].
  rewrite Hd. change MS_PER_DAY with 86400000 in *. lia.
Qed.

(** On two stored dates the cycle day is the difference of their day
    numbers plus one. *)
Lemma getCurrentCycleDay_iso (host : Host) (now a b : Z) :
  getCurrentCycleDay host now (ISODate a) (Some (ISODate b)) = b - a + 1.
Proof.
  unfold getCurrentCycleDay, getTime, new_Date.
  rewrite Math_floor_div.
  replace (b * MS_PER_DAY - a * MS_PER_DAY) with ((b - a) * MS_PER_DAY) by lia.
  rewrite Z.div_mul by discriminate. reflexivity.
Qed.

(* ================================================================= *)
(** ** Classification *)

Ltac by_ranges :=
  unfold getCyclePhase, getPregnancyChance;
  repeat match goal with
         | |- context [?a <=? ?b] =>
             let E := fresh "E" in
             destruct (Z.leb_spec a b) as [E|E]; cbn [andb orb]
         end.

Lemma getCyclePhase_on (day : Z) : Tables.phaseOn (getCyclePhase day) day.
Proof. unfold Tables.phaseOn. by_ranges; intuition lia. Qed.

Lemma getPregnancyChance_on (day : Z) :
  Tables.chanceOn (getPregnancyChance day) day.
Proof. unfold Tables.chanceOn. by_ranges; intuition lia. Qed.

Lemma phaseOn_unique (p q : string) (day : Z) :
  Tables.phaseOn p day -> Tables.phaseOn q day -> p = q.
Proof. unfold Tables.phaseOn. intros Hp Hq. intuition (subst; first [reflexivity | lia]). Qed.

Lemma chanceOn_unique (c e : string) (day : Z) :
  Tables.chanceOn c day -> Tables.chanceOn e day -> c = e.
Proof. unfold Tables.chanceOn. intros Hc He. intuition (subst; first [reflexivity | lia]). Qed.

(** C3.  On every positive cycle day the phase is Menstrual up to day 5,
    Follicular on 6-10, Ovulatory on 11-14, Luteal on 15-28 and Extended
    after; the pregnancy chance, on its own axis, is High on 11-17, Medium
    on 8-10 and 18-20, Low otherwise; each day has exactly one phase and
    exactly one chance tier. *)
Theorem C3_classification (day : Z) :
  0 < day ->
  (day <= 5 -> getCyclePhase day = "Menstrual"%string)
  /\ (6 <= day <= 10 -> getCyclePhase day = "Follicular"%string)
  /\ (11 <= day <= 14 -> getCyclePhase day = "Ovulatory"%string)
  /\ (15 <= day <= 28 -> getCyclePhase day = "Luteal"%string)
  /\ (28 < day -> getCyclePhase day = "Extended"%string)
  /\ (11 <= day <= 17 -> getPregnancyChance day = "High"%string)
  /\ (8 <= day <= 10 \/ 18 <= day <= 20 ->
      getPregnancyChance day = "Medium"%string)
  /\ (~ (11 <= day <= 17) -> ~ (8 <= day <= 10 \/ 18 <= day <= 20) ->
      getPregnancyChance day = "Low"%string)
  /\ (exists! p, Tables.phaseOn p day)
  /\ (exists! c, Tables.chanceOn c day).
Proof.
  intros Hpos.
  repeat match goal with |- _ /\ _ => split end.
  1-8: by_ranges; intros; first [reflexivity | lia].
  - exists (getCyclePhase day). split; [apply getCyclePhase_on|].
    intros p Hp. eapply phaseOn_unique; [apply getCyclePhase_on | exact Hp].
  - exists (getPregnancyChance day). split; [apply getPregnancyChance_on|].
    intros c Hc. eapply chanceOn_unique; [apply getPregnancyChance_on | exact Hc].
Qed.

Lemma C3_classification_witness :
  getCyclePhase 12 = "Ovulatory"%string
  /\ getPregnancyChance 12 = "High"%string.
Proof.
  assert (H : 0 < 12) by reflexivity.
  pose proof (C3_classification 12 H) as HC.
  destruct HC as (_ & _ & Hov & _ & _ & Hhigh & _).
  split; [apply Hov | apply Hhigh]; lia.
Defined.

(** C9.  Every cycle day at or below 0 is classified Menstrual with a Low
    chance; [getCycleInfo] reports just that when the reference date
    precedes the start. *)
Theorem C9_nonpositive_days (cycleDay : Z) :
  cycleDay <= 0 ->
  getCyclePhase cycleDay = "Menstrual"%string
  /\ getPregnancyChance cycleDay = "Low"%string
  /\ forall host now startDate referenceDate cycleLength,
       getCurrentCycleDay host now startDate (Some referenceDate) = cycleDay ->
       getCycleInfo host now startDate (Some referenceDate) cycleLength
       = {| phase := "Menstrual";
            description := getPhaseDescription "Menstrual";
            cycleDay := cycleDay;
            pregnancyChance := "Low" |}.
Proof.
  intros H.
  assert (Hp : getCyclePhase cycleDay = "Menstrual"%string).
  { by_ranges; first [reflexivity | lia]. }
  assert (Hc : getPregnancyChance cycleDay = "Low"%string).
  { by_ranges; first [reflexivity | lia]. }
  repeat split; try assumption.
  intros host now startDate referenceDate cl Hday.
  unfold getCycleInfo. now rewrite Hday, Hp, Hc.
Qed.

Lemma C9_nonpositive_days_witness :
  getCycleInfo utc 0 (iso 2024 1 15) (Some (iso 2024 1 1)) None
  = {| phase := "Menstrual";
       description := getPhaseDescription "Menstrual";
       cycleDay := -13;
       pregnancyChance := "Low" |}.
Proof.
  assert (H : -13 <= 0) by discriminate.
  pose proof (C9_nonpositive_days (-13) H) as (_ & _ & HC).
  apply HC. vm_compute. reflexivity.
Defined.

(* ================================================================= *)
(** ** Effects: the caller's array and the wall clock *)

Lemma getAverageCycleLength_array (host : Host) (dates : list DateString) :
  snd (getAverageCycleLength host dates)
  = if (List.length dates <? 2)%nat then dates
    else Array_sort (byTimeDescending host) dates.
Proof.
  unfold getAverageCycleLength.
  destruct (List.length dates <? 2)%nat; [reflexivity|].
  destruct (groupPeriods host _) as [|first rest]; [reflexivity|].
  destruct (averageLoop host 1 first rest 0 0 0) as [[wt ws] c]. reflexivity.
Qed.

(** A call on the array an earlier call has left returns the same number
    and leaves the array as it is. *)
Lemma getAverageCycleLength_again (host : Host) (dates : list DateString) :
  getAverageCycleLength host (snd (getAverageCycleLength host dates))
  = (fst (getAverageCycleLength host dates),
     snd (getAverageCycleLength host dates)).
Proof.
  destruct (List.length dates <? 2)%nat eqn:E.
  - unfold getAverageCycleLength. rewrite E. cbn [fst snd]. now rewrite E.
  - assert (Hs : snd (getAverageCycleLength host dates)
                 = Array_sort (byTimeDescending host) dates).
    { rewrite getAverageCycleLength_array. now rewrite E. }
    rewrite Hs. unfold getAverageCycleLength.
    rewrite (Permutation_length (sortDates_perm host dates)), E.
    change (Array_sort (byTimeDescending host) (Array_sort (byTimeDescending host) dates))
      with (Array_sort (fun a b => Spec.timeOf host b - Spec.timeOf host a)
              (Array_sort (fun a b => Spec.timeOf host b - Spec.timeOf host a) dates)).
    rewrite (Array_sort_idempotent (Spec.timeOf host)).
    destruct (groupPeriods host _) as [|first rest]; [reflexivity|].
    destruct (averageLoop host 1 first rest 0 0 0) as [[wt ws] c]. reflexivity.
Qed.

(** C8, as the code has it.  Every operation is a function of its
    arguments and of the wall-clock time it reads: [getPrediction] always
    reads the clock, [getCurrentCycleDay] and [getCycleInfo] only when no
    reference date is given.  [getAverageCycleLength], and [getPrediction]
    through it, leave the caller's array holding the same dates, and a
    second call on that array returns the same result. *)
Theorem C8_effects (host : Host) (dates : list DateString) :
  let after := snd (getAverageCycleLength host dates) in
  Permutation after dates
  /\ getAverageCycleLength host after
     = (fst (getAverageCycleLength host dates), after)
  /\ (forall now startDate,
        snd (getPrediction host now startDate dates) = after
        /\ getPrediction host now startDate after
           = (fst (getPrediction host now startDate dates), after))
  /\ (forall now now' startDate referenceDate cycleLength,
        getCurrentCycleDay host now startDate (Some referenceDate)
        = getCurrentCycleDay host now' startDate (Some referenceDate)
        /\ getCycleInfo host now startDate (Some referenceDate) cycleLength
           = getCycleInfo host now' startDate (Some referenceDate) cycleLength)
  /\ (forall now startDate,
        getCurrentCycleDay host now startDate None
        = (now - new_Date host startDate) / MS_PER_DAY + 1)
  /\ (forall now startDate n,
        days (fst (getPrediction host (now + n * MS_PER_DAY) startDate dates))
        = days (fst (getPrediction host now startDate dates)) - n).
Proof.
  intros after.
  split.
  { subst after. rewrite getAverageCycleLength_array.
    destruct (List.length dates <? 2)%nat; [reflexivity | apply sortDates_perm]. }
  split; [apply getAverageCycleLength_again|].
  split.
  { intros now startDate. subst after. unfold getPrediction.
    rewrite getAverageCycleLength_again.
    destruct (getAverageCycleLength host dates) as [n l]. split; reflexivity. }
  split; [intros; split; reflexivity|].
  split.
  { intros now startDate. unfold getCurrentCycleDay, getTime.
    now rewrite Math_floor_div. }
  intros now startDate n. unfold getPrediction.
  destruct (getAverageCycleLength host dates) as [cl l]. cbn [fst days].
  unfold getTime. rewrite !Math_ceil_div.
  set (forecast := setDate host _ _).
  replace (- (forecast - (now + n * MS_PER_DAY)))
    with (- (forecast - now) + n * MS_PER_DAY) by lia.
  rewrite Z.div_add by discriminate. lia.
Qed.

(** The claim as the specification words it fails twice: the caller's
    array is reordered, and the result of [getPrediction] changes with the
    wall clock. *)
Lemma C8_counterexample :
  snd (getAverageCycleLength utc [iso 2024 1 1; iso 2024 1 29])
  = [iso 2024 1 29; iso 2024 1 1]
  /\ snd (getAverageCycleLength utc [iso 2024 1 1; iso 2024 1 29])
     <> [iso 2024 1 1; iso 2024 1 29]
  /\ fst (getPrediction utc (new_Date utc (iso 2024 2 1)) (iso 2024 1 29)
            [iso 2024 1 1; iso 2024 1 29])
     <> fst (getPrediction utc (new_Date utc (iso 2024 2 2)) (iso 2024 1 29)
               [iso 2024 1 1; iso 2024 1 29]).
Proof. vm_compute. repeat split; congruence. Qed.

(* ================================================================= *)
(** ** The scenarios of the specification, and the arithmetic at work *)

(** One episode, no gap: 28. *)
Example scenario_1 :
  fst (getAverageCycleLength utc
         [iso 2024 1 1; iso 2024 1 2; iso 2024 1 3; iso 2024 1 4; iso 2024 1 5])
  = 28.
Proof. vm_compute. reflexivity. Qed.

(** Two episodes that start 28 days apart: 28. *)
Example scenario_2 :
  fst (getAverageCycleLength utc
         [iso 2024 1 1; iso 2024 1 2; iso 2024 1 3;
          iso 2024 1 29; iso 2024 1 30; iso 2024 1 31])
  = 28.
Proof. vm_compute. reflexivity. Qed.

Example scenario_3 :
  getCurrentCycleDay utc 0 (iso 2024 1 1) (Some (iso 2024 1 1)) = 1
  /\ getCurrentCycleDay utc 0 (iso 2024 1 1) (Some (iso 2024 1 15)) = 15.
Proof. vm_compute. split; reflexivity. Qed.

Example scenario_4 :
  getOvulationDay utc (iso 2024 1 1) (Some 28) = rendered 2024 1 15.
Proof. vm_compute. reflexivity. Qed.

Example scenario_5 :
  getFertilityWindow utc (iso 2024 1 1) (Some 28)
  = {| start := rendered 2024 1 10;
       end_ := rendered 2024 1 15;
       ovulationDay := rendered 2024 1 15 |}.
Proof. vm_compute. reflexivity. Qed.

Example scenario_6 :
  getCyclePhase 12 = "Ovulatory"%string
  /\ getPregnancyChance 12 = "High"%string.
Proof. split; reflexivity. Qed.

(** The weights as doubles: the fourth is one step short of 0.4. *)
Example weights_binary64 :
  map Spec.weight [0; 1; 2; 3; 4; 5; 6]%nat
  = [1; 0.8; 0.6; 0x1.9999999999998p-2; 0.2; 0.2; 0.2]%float.
Proof. vm_compute. reflexivity. Qed.

(** Four episodes with gaps of 12, 18 and 18 days.  The exact weighted
    average is 37.2 / 2.4 = 15.5; in doubles the quotient is
    37.199999999999996 / 2.4 = 15.499999999999998, and the estimate 15. *)
Example tie_in_binary64 :
  fst (getAverageCycleLength utc
         [iso 2024 1 1; iso 2024 1 2; iso 2024 1 19; iso 2024 2 6;
          iso 2024 2 7; iso 2024 2 18])
  = 15
  /\ Spec.gaps utc
       (episodes utc
          [iso 2024 1 1; iso 2024 1 2; iso 2024 1 19; iso 2024 2 6;
           iso 2024 2 7; iso 2024 2 18])
     = [12; 18; 18].
Proof. vm_compute. split; reflexivity. Qed.

(** Seven episodes: the sixth gap, however long, is not counted. *)
Example sixth_gap_ignored :
  fst (getAverageCycleLength utc
         (map ISODate [300; 272; 244; 216; 188; 160; 0]))
  = 28.
Proof. vm_compute. reflexivity. Qed.

(** A forecast two days past: [days] is negative. *)
Example overdue :
  fst (getPrediction utc (new_Date utc (iso 2024 2 28)) (iso 2024 1 29)
         [iso 2024 1 1; iso 2024 1 29])
  = {| days := -2; date := rendered 2024 2 26; cycleLength := 28 |}.
Proof. vm_compute. reflexivity. Qed.

(** West of Greenwich a stored date, read as midnight UTC, falls on the
    evening before in local time, and the rendered days follow. *)
Example west_of_Greenwich :
  getOvulationDay (fixedOffset (- 5 * hour)) (iso 2024 1 1) (Some 28)
  = rendered 2024 1 14.
Proof. vm_compute. reflexivity. Qed.

(** Across the end of summer time a local day has 25 hours.  In New York,
    for the start '2024-10-27' and a cycle length of 28, the forecast
    instant is 24 November 01:00 UTC: half an hour before it one day is
    left while the cycle day is already 29. *)
Example across_the_end_of_summer_time :
  let now := new_Date utc (iso 2024 11 24) + hour / 2 in
  let dates := [iso 2024 9 29; iso 2024 10 27] in
  fst (getPrediction newYork2024 now (iso 2024 10 27) dates)
  = {| days := 1; date := rendered 2024 11 23; cycleLength := 28 |}
  /\ getCurrentCycleDay newYork2024 now (iso 2024 10 27) None = 29
  /\ addLocalDays newYork2024 (new_Date newYork2024 (iso 2024 10 27)) 28
     = new_Date newYork2024 (iso 2024 10 27) + 28 * MS_PER_DAY + hour.
Proof. vm_compute. repeat split; reflexivity. Qed.

(** East of Greenwich the stored date falls on the day it names, also
    across the start of summer time. *)
Example across_the_start_of_summer_time :
  fst (getPrediction berlin2024 (new_Date utc (iso 2024 3 20)) (iso 2024 3 10)
         [iso 2024 2 11; iso 2024 3 10])
  = {| days := 18; date := rendered 2024 4 7; cycleLength := 28 |}
  /\ getFertilityWindow berlin2024 (iso 2024 3 10) (Some 28)
     = {| start := rendered 2024 3 19;
          end_ := rendered 2024 3 24;
          ovulationDay := rendered 2024 3 24 |}.
Proof. vm_compute. split; reflexivity. Qed.

(** A host that renders the day before the month and reads the month
    before the day: the ovulation day 15/01/2024 has no month 15, and
    11/01/2024 is read as 1 November. *)
Example day_before_month :
  getFertilityWindow dayMonthHost (iso 2024 1 1) (Some 28)
  = {| start := InvalidDate;
       end_ := rendered 2024 1 15;
       ovulationDay := rendered 2024 1 15 |}
  /\ getFertilityWindow dayMonthHost (iso 2024 1 1) (Some 24)
     = {| start := rendered 2024 10 27;
          end_ := rendered 2024 1 11;
          ovulationDay := rendered 2024 1 11 |}.
Proof. vm_compute. split; reflexivity. Qed.

(* ================================================================= *)
(** ** The periods are the runs of the sorted array *)

Section RunFacts.

Variable host : Host.

Local Abbreviation timeOf := (Spec.timeOf host).

Lemma groupLoop_runs (rest : list DateString) :
  forall (prev : DateString) (periods : list (list DateString))
         (earlier : list DateString),
    groupLoop host prev rest periods (earlier ++ [prev])
    = periods ++ (earlier ++ fst (runs timeOf prev rest))
                 :: snd (runs timeOf prev rest).
Proof.
  induction rest as [|d rest IH]; intros prev periods earlier.
  - reflexivity.
  - rewrite groupLoop_cons. cbn [runs].
    destruct (runs timeOf d rest) as [run others] eqn:E.
    unfold near. fold (Spec.timeOf host).
    destruct (Z.abs (timeOf d - timeOf prev) <=? 7 * MS_PER_DAY).
    + rewrite IH, E. cbn [fst snd]. now rewrite <- app_assoc.
    + change (groupLoop host d rest (periods ++ [earlier ++ [prev]]) [d])
        with (groupLoop host d rest (periods ++ [earlier ++ [prev]]) ([] ++ [d])).
      rewrite IH, E. cbn [fst snd app]. now rewrite <- app_assoc.
Qed.

Lemma episodes_runs (dates : list DateString) :
  episodes host dates
  = runsOf timeOf (Array_sort (byTimeDescending host) dates).
Proof.
  unfold episodes, groupPeriods, runsOf.
  destruct (Array_sort (byTimeDescending host) dates) as [|x rest]; [reflexivity|].
  pose proof (groupLoop_runs rest x [] []) as H. cbn [app] in H.
  rewrite H. now destruct (runs timeOf x rest).
Qed.

End RunFacts.

Section RunShape.

Context {A : Type}.
Variable key : A -> Z.

Lemma runs_head (x : A) (rest : list A) :
  exists tail, fst (runs key x rest) = x :: tail.
Proof.
  destruct rest as [|y rest]; cbn [runs]; [now exists []|].
  destruct (runs key y rest) as [run others].
  destruct (near key x y); cbn [fst]; eauto.
Qed.

(** Laid end to end, the runs are the array. *)
Lemma runs_concat (rest : list A) :
  forall x, fst (runs key x rest) ++ List.concat (snd (runs key x rest))
            = x :: rest.
Proof.
  induction rest as [|y rest IH]; intros x; cbn [runs]; [reflexivity|].
  specialize (IH y). destruct (runs key y rest) as [run others].
  cbn [fst snd] in IH.
  destruct (near key x y); cbn [fst snd List.concat app]; now rewrite IH.
Qed.

(** Inside a run every element is near the one before it. *)
Lemma runs_linked (rest : list A) :
  forall x l1 a b l2,
    fst (runs key x rest) = l1 ++ a :: b :: l2 -> near key a b = true.
Proof.
  induction rest as [|y rest IH]; intros x l1 a b l2; cbn [runs].
  - destruct l1 as [|? [|? ?]]; discriminate.
  - destruct (runs_head y rest) as [tail Ht].
    specialize (IH y).
    destruct (runs key y rest) as [run others]. cbn [fst] in *. subst run.
    destruct (near key x y) eqn:E; cbn [fst].
    + destruct l1 as [|x' l1]; cbn [app]; intros H.
      * inversion H; subst. exact E.
      * inversion H; subst. eapply IH. eassumption.
    + destruct l1 as [|? [|? ?]]; discriminate.
Qed.

Lemma runs_linked_all (rest : list A) :
  forall x p l1 a b l2,
    In p (fst (runs key x rest) :: snd (runs key x rest)) ->
    p = l1 ++ a :: b :: l2 -> near key a b = true.
Proof.
  induction rest as [|y rest IH]; intros x p l1 a b l2 Hin Hp.
  - destruct Hin as [<-|[]]. destruct l1 as [|? [|? ?]]; discriminate.
  - pose proof (runs_linked (y :: rest) x l1 a b l2) as Hfirst.
    specialize (IH y p l1 a b l2).
    cbn [runs] in Hin, Hfirst.
    destruct (runs key y rest) as [run others].
    destruct (near key x y); cbn [fst snd] in *.
    + destruct Hin as [<-|Hin]; [now apply Hfirst|].
      apply IH; [now right | exact Hp].
    + destruct Hin as [<-|Hin]; [now apply Hfirst|].
      apply IH; [exact Hin | exact Hp].
Qed.

(** Where one run ends and the next begins, the two elements are not
    near. *)
Lemma runs_separated (rest : list A) :
  forall x e1 newer older e2,
    fst (runs key x rest) :: snd (runs key x rest)
    = e1 ++ newer :: older :: e2 ->
    exists l a b l',
      newer = l ++ [a] /\ older = b :: l' /\ near key a b = false.
Proof.
  induction rest as [|y rest IH]; intros x e1 newer older e2; cbn [runs].
  - destruct e1 as [|? [|? ?]]; discriminate.
  - destruct (runs_head y rest) as [tail Ht].
    specialize (IH y).
    destruct (runs key y rest) as [run others]. cbn [fst snd] in *.
    destruct (near key x y) eqn:E; cbn [fst snd].
    + destruct e1 as [|e e1]; cbn [app]; intros H; inversion H; subst.
      * destruct (IH [] (y :: tail) older e2 eq_refl) as (l & a & b & l' & Hn & Ho & Hf).
        exists (x :: l), a, b, l'. now rewrite Hn.
      * apply (IH ((y :: tail) :: e1) newer older e2). reflexivity.
    + destruct e1 as [|e e1]; cbn [app]; intros H; inversion H; subst.
      * exists [], x, y, tail. auto.
      * apply (IH e1 newer older e2). assumption.
Qed.

(** The least key of a non-empty list is the key of one of its elements
    and is below the key of each. *)
Lemma fold_min_attained (x : A) (l : list A) :
  exists d, In d (x :: l)
            /\ fold_right (fun s m => Z.min (key s) m) (key x) l = key d.
Proof.
  induction l as [|y l (d & Hin & IH)]; cbn [fold_right].
  - exists x. split; [now left | reflexivity].
  - rewrite IH. destruct (Z.min_spec (key y) (key d)) as [[_ ->]|[_ ->]].
    + exists y. split; [right; now left | reflexivity].
    + exists d. split; [|reflexivity].
      destruct Hin as [->|Hin]; [now left | right; now right].
Qed.

Lemma fold_min_below (x : A) (l : list A) (d : A) :
  In d (x :: l) ->
  fold_right (fun s m => Z.min (key s) m) (key x) l <= key d.
Proof.
  induction l as [|y l IH]; cbn [fold_right]; intros Hin.
  - destruct Hin as [->|[]]. lia.
  - destruct Hin as [->|[->|Hin]].
    + specialize (IH (or_introl eq_refl)). lia.
    + lia.
    + specialize (IH (or_intror Hin)). lia.
Qed.

End RunShape.

Section EpisodeShape.

Variable host : Host.

Local Abbreviation timeOf := (Spec.timeOf host).

Lemma descending_after {A : Type} (key : A -> Z) (l1 l2 : list A) (a b : A) :
  descending key (l1 ++ a :: l2) -> In b l2 -> key b <= key a.
Proof.
  intros H Hin. apply descending_app in H. destruct H as [_ H].
  inversion H as [|? ? _ Hall]; subst.
  rewrite Forall_forall in Hall. exact (Hall b Hin).
Qed.

Lemma startTime_attained (p : list DateString) :
  p <> [] -> exists d, In d p /\ Spec.startTime host p = timeOf d.
Proof.
  destruct p as [|x l]; [congruence|]. intros _.
  exact (fold_min_attained timeOf x l).
Qed.

Lemma startTime_below (p : list DateString) (d : DateString) :
  In d p -> Spec.startTime host p <= timeOf d.
Proof.
  destruct p as [|x l]; [intros []|]. exact (fold_min_below timeOf x l d).
Qed.

Lemma episodes_decompose (dates : list DateString) :
  match Array_sort (byTimeDescending host) dates with
  | [] => episodes host dates = []
  | x :: rest =>
      episodes host dates
      = fst (runs timeOf x rest) :: snd (runs timeOf x rest)
  end.
Proof.
  rewrite episodes_runs. unfold runsOf.
  destruct (Array_sort (byTimeDescending host) dates) as [|x rest]; [reflexivity|].
  now destruct (runs timeOf x rest).
Qed.

(** X1.  Inside an episode each date is at most seven days before the
    one listed before it. *)
Theorem episode_neighbours_within_7_days (dates p l1 l2 : list DateString)
    (a b : DateString) :
  In p (episodes host dates) ->
  p = l1 ++ a :: b :: l2 ->
  0 <= timeOf a - timeOf b <= 7 * MS_PER_DAY.
Proof.
  intros Hin Hp.
  assert (Hord : timeOf b <= timeOf a).
  { pose proof (episodes_descending host dates) as Hd.
    rewrite Forall_forall in Hd. specialize (Hd p Hin). subst p.
    eapply (descending_after timeOf); [exact Hd | now left]. }
  assert (Hnear : near timeOf a b = true).
  { pose proof (episodes_decompose dates) as He.
    destruct (Array_sort (byTimeDescending host) dates) as [|x rest];
      rewrite He in Hin; [destruct Hin|].
    eapply runs_linked_all; eassumption. }
  unfold near in Hnear. apply Z.leb_le in Hnear. lia.
Qed.

(** Every date of an episode lies more than seven days before the start
    of the episode listed before it. *)
Lemma older_dates_far_before (dates newer older : list DateString)
    (e1 e2 : list (list DateString)) (d : DateString) :
  episodes host dates = e1 ++ newer :: older :: e2 ->
  In d older ->
  7 * MS_PER_DAY < Spec.startTime host newer - timeOf d.
Proof.
  intros He Hd.
  assert (Hnew : In newer (episodes host dates)).
  { rewrite He. apply in_or_app. right. now left. }
  pose proof (lastOf_startTime host dates newer Hnew) as Hstart.
  pose proof (sortDates_descending host dates) as Hsorted.
  rewrite <- concat_episodes, He in Hsorted.
  pose proof (episodes_decompose dates) as Hr.
  destruct (Array_sort (byTimeDescending host) dates) as [|x rest].
  { rewrite Hr in He. destruct e1; discriminate. }
  rewrite Hr in He.
  destruct (runs_separated timeOf rest x e1 newer older e2 He)
    as (l & a & b & l' & Hn & Ho & Hfar).
  subst newer older.
  unfold lastOf in Hstart. rewrite last_last in Hstart.
  change (getTime (new_Date host a)) with (timeOf a) in Hstart.
  assert (Hc : List.concat (e1 ++ (l ++ [a]) :: (b :: l') :: e2)
               = (List.concat e1 ++ l) ++ a :: ((b :: l') ++ List.concat e2)).
  { rewrite concat_app. cbn [List.concat]. now rewrite <- !app_assoc. }
  rewrite Hc in Hsorted.
  assert (Hb : timeOf b <= timeOf a).
  { eapply (descending_after timeOf); [exact Hsorted|]. now left. }
  assert (Hdb : timeOf d <= timeOf b).
  { destruct Hd as [<-|Hd]; [lia|].
    apply descending_app in Hsorted. destruct Hsorted as [_ Hs].
    inversion Hs as [|? ? Hs' _]; subst.
    inversion Hs' as [|? ? _ Hall]; subst.
    apply Forall_app in Hall. destruct Hall as [Hall _].
    rewrite Forall_forall in Hall. exact (Hall d Hd). }
  unfold near in Hfar. apply Z.leb_gt in Hfar. lia.
Qed.

(** Every gap between two episode starts is at least seven whole days. *)
Lemma gapDays_at_least_7 (dates newer older : list DateString)
    (e1 e2 : list (list DateString)) :
  episodes host dates = e1 ++ newer :: older :: e2 ->
  7 <= Spec.gapDays host newer older.
Proof.
  intros He.
  assert (Hold : In older (episodes host dates)).
  { rewrite He. apply in_or_app. right. right. now left. }
  pose proof (episodes_nonempty host dates) as Hne.
  rewrite Forall_forall in Hne.
  destruct (startTime_attained older (Hne older Hold)) as (d & Hd & Hs).
  pose proof (older_dates_far_before dates newer older e1 e2 d He Hd)
    as Hfar.
  unfold Spec.gapDays. rewrite Hs.
  apply Z.div_le_lower_bound; [reflexivity|]. lia.
Qed.

(** X2.  Two episodes listed one after the other are more than seven
    days apart: every date of the older one lies more than seven days
    before the start of the newer one, so do the two starts, and the gap
    between them counts at least seven whole days. *)
Theorem episodes_more_than_7_days_apart (dates newer older : list DateString)
    (e1 e2 : list (list DateString)) :
  episodes host dates = e1 ++ newer :: older :: e2 ->
  (forall d, In d older ->
     7 * MS_PER_DAY < Spec.startTime host newer - timeOf d)
  /\ Spec.startTime host older + 7 * MS_PER_DAY < Spec.startTime host newer
  /\ 7 <= Spec.gapDays host newer older.
Proof.
  intros He.
  assert (Hfar : forall d, In d older ->
            7 * MS_PER_DAY < Spec.startTime host newer - timeOf d).
  { intros d Hd. exact (older_dates_far_before dates newer older e1 e2 d He Hd). }
  split; [exact Hfar|]. split; [|exact (gapDays_at_least_7 dates newer older e1 e2 He)].
  assert (Hold : In older (episodes host dates)).
  { rewrite He. apply in_or_app. right. right. now left. }
  pose proof (episodes_nonempty host dates) as Hne.
  rewrite Forall_forall in Hne.
  destruct (startTime_attained older (Hne older Hold)) as (d & Hd & Hs).
  specialize (Hfar d Hd). lia.
Qed.

End EpisodeShape.

(* ================================================================= *)
(** ** The order of the input does not matter *)

Section KeysOnly.

Context {A : Type}.
Variable key : A -> Z.

Lemma map_insert (x : A) (l : list A) :
  map key (insert (fun a b => key b - key a) x l)
  = insert (fun a b : Z => b - a) (key x) (map key l).
Proof.
  induction l as [|y l IH]; cbn [insert map]; [reflexivity|].
  destruct (key y - key x <=? 0); cbn [map]; [reflexivity | now rewrite IH].
Qed.

Lemma map_Array_sort (l : list A) :
  map key (Array_sort (fun a b => key b - key a) l)
  = Array_sort (fun a b : Z => b - a) (map key l).
Proof.
  induction l as [|x l IH]; cbn [Array_sort map]; [reflexivity|].
  now rewrite map_insert, IH.
Qed.

Lemma map_runs (rest : list A) :
  forall x,
    map key (fst (runs key x rest))
    = fst (runs (fun z : Z => z) (key x) (map key rest))
    /\ map (map key) (snd (runs key x rest))
       = snd (runs (fun z : Z => z) (key x) (map key rest)).
Proof.
  induction rest as [|y rest IH]; intros x; cbn [runs map]; [now split|].
  destruct (IH y) as [IH1 IH2].
  destruct (runs key y rest) as [run others].
  destruct (runs (fun z : Z => z) (key y) (map key rest)) as [run' others'].
  cbn [fst snd] in *. unfold near.
  destruct (Z.abs (key y - key x) <=? 7 * MS_PER_DAY); cbn [fst snd map];
    subst; now split.
Qed.

Lemma map_runsOf (l : list A) :
  map (map key) (runsOf key l) = runsOf (fun z : Z => z) (map key l).
Proof.
  destruct l as [|x rest]; [reflexivity|]. cbn [runsOf map].
  destruct (map_runs rest x) as [H1 H2].
  destruct (runs key x rest) as [run others].
  destruct (runs (fun z : Z => z) (key x) (map key rest)) as [run' others'].
  cbn [fst snd map] in *. now subst.
Qed.

End KeysOnly.

(** Two descending arrangements of the same numbers are the same list. *)
Lemma descending_unique (l1 : list Z) :
  forall l2, descending (fun z : Z => z) l1 -> descending (fun z : Z => z) l2 ->
             Permutation l1 l2 -> l1 = l2.
Proof.
  unfold descending, before.
  induction l1 as [|x l1 IH]; intros l2 H1 H2 Hp.
  - apply Permutation_nil in Hp. now subst.
  - destruct l2 as [|y l2].
    { apply Permutation_sym, Permutation_nil in Hp. discriminate. }
    inversion H1 as [|? ? H1' Hx]; subst.
    inversion H2 as [|? ? H2' Hy]; subst.
    rewrite Forall_forall in Hx, Hy.
    assert (Hxy : x = y).
    { assert (Hx2 : In x (y :: l2))
        by (eapply Permutation_in; [exact Hp | now left]).
      assert (Hy1 : In y (x :: l1))
        by (eapply Permutation_in; [symmetry; exact Hp | now left]).
      destruct Hx2 as [->|Hx2]; [reflexivity|].
      destruct Hy1 as [->|Hy1]; [reflexivity|].
      specialize (Hx y Hy1). specialize (Hy x Hx2). cbv beta in *. lia. }
    subst y. f_equal. apply IH; try assumption.
    eapply Permutation_cons_inv. exact Hp.
Qed.

Section OrderOfInput.

Variable host : Host.

Local Abbreviation timeOf := (Spec.timeOf host).

Lemma sorted_times (l1 l2 : list DateString) :
  Permutation l1 l2 ->
  map timeOf (Array_sort (byTimeDescending host) l1)
  = map timeOf (Array_sort (byTimeDescending host) l2).
Proof.
  intros Hp.
  change (Array_sort (byTimeDescending host))
    with (Array_sort (fun a b => timeOf b - timeOf a)).
  rewrite !map_Array_sort.
  apply descending_unique.
  - apply (Array_sort_descending (fun z : Z => z)).
  - apply (Array_sort_descending (fun z : Z => z)).
  - rewrite !(Array_sort_perm (fun z : Z => z)). now apply Permutation_map.
Qed.

Lemma episode_times (l1 l2 : list DateString) :
  Permutation l1 l2 ->
  map (map timeOf) (episodes host l1) = map (map timeOf) (episodes host l2).
Proof.
  intros Hp. rewrite !episodes_runs, !map_runsOf. f_equal.
  now apply sorted_times.
Qed.

Lemma startTime_times (p q : list DateString) :
  map timeOf p = map timeOf q -> Spec.startTime host p = Spec.startTime host q.
Proof.
  destruct p as [|x p], q as [|y q]; try discriminate; [reflexivity|].
  cbn [map Spec.startTime]. intros H. injection H as Hxy H. rewrite Hxy.
  revert q H. induction p as [|a p IH]; intros [|b q] H; try discriminate;
    [reflexivity|].
  cbn [map fold_right] in *. injection H as Hab H. now rewrite Hab, (IH q H).
Qed.

Lemma gaps_times (eps1 : list (list DateString)) :
  forall eps2,
    map (map timeOf) eps1 = map (map timeOf) eps2 ->
    Spec.gaps host eps1 = Spec.gaps host eps2.
Proof.
  induction eps1 as [|p [|p' eps1] IH]; intros [|q [|q' eps2]] H;
    try discriminate; try reflexivity.
  rewrite !gaps_cons. cbn [map] in H. injection H as Hp Hp' H.
  unfold Spec.gapDays.
  rewrite (startTime_times p q Hp), (startTime_times p' q' Hp').
  f_equal. apply IH. cbn [map]. now rewrite Hp', H.
Qed.

(** The estimate through the episodes, whatever their number. *)
Lemma average_by_episodes (dates : list DateString) :
  fst (getAverageCycleLength host dates)
  = if (List.length (episodes host dates) <? 2)%nat then 28
    else Spec.estimateCycleLength host (episodes host dates).
Proof.
  unfold getAverageCycleLength.
  destruct (List.length dates <? 2)%nat eqn:E.
  { apply Nat.ltb_lt in E. apply (episodes_short host) in E.
    apply Nat.ltb_lt in E. now rewrite E. }
  pose proof (fun p => lastOf_startTime host dates p) as Hstart.
  unfold episodes in *.
  destruct (groupPeriods host (Array_sort (byTimeDescending host) dates))
    as [|first [|second rest]]; try reflexivity.
  rewrite averageLoop_sums.
  2:{ apply Forall_forall. intros p Hp. now apply Hstart. }
  rewrite gaps_cons. cbn [fst List.length Nat.ltb Nat.leb].
  unfold Spec.estimateCycleLength, Spec.weightedTotal, Spec.weightSum.
  rewrite gaps_cons, <- Math_round_valueOf. reflexivity.
Qed.

(** X4.  The estimate does not depend on the order in which the dates
    are supplied. *)
Theorem estimate_ignores_input_order (l1 l2 : list DateString) :
  Permutation l1 l2 ->
  fst (getAverageCycleLength host l1) = fst (getAverageCycleLength host l2).
Proof.
  intros Hp. rewrite !average_by_episodes.
  pose proof (episode_times l1 l2 Hp) as Ht.
  assert (Hlen : List.length (episodes host l1) = List.length (episodes host l2)).
  { rewrite <- (length_map (map timeOf) (episodes host l1)), Ht.
    apply length_map. }
  rewrite Hlen. unfold Spec.estimateCycleLength.
  now rewrite (gaps_times _ _ Ht).
Qed.

End OrderOfInput.

(* ================================================================= *)
(** ** How the operations of the service fit together *)

(** X3.  Grouping neither loses nor invents a date: laid end to end the
    episodes are the input in another order, none is empty, and there are
    at most as many episodes as dates. *)
Theorem episodes_partition_the_dates (host : Host) (dates : list DateString) :
  Permutation (List.concat (episodes host dates)) dates
  /\ Forall (fun p => p <> []) (episodes host dates)
  /\ (List.length (episodes host dates) <= List.length dates)%nat.
Proof.
  assert (Hperm : Permutation (List.concat (episodes host dates)) dates).
  { rewrite concat_episodes. apply sortDates_perm. }
  pose proof (episodes_nonempty host dates) as Hne.
  split; [exact Hperm|]. split; [exact Hne|].
  rewrite <- (Permutation_length Hperm). clear Hperm.
  induction Hne as [|p eps Hp Hne IH]; cbn [List.concat]; [reflexivity|].
  rewrite length_app. destruct p; [congruence|].
  change (List.length (d :: p)) with (S (List.length p)).
  change (List.length ((d :: p) :: eps)) with (S (List.length eps)). lia.
Qed.

(** X5.  When the forecast instant is the start instant plus the cycle
    length in days of 24 hours (no change of the UTC offset moves it),
    the days until the forecast and the current cycle day add up to the
    cycle length plus one, at any moment. *)
Theorem days_until_plus_cycle_day (host : Host) (now : Z) (startDate : DateString)
    (allDates : list DateString) :
  let r := fst (getPrediction host now startDate allDates) in
  addLocalDays host (new_Date host startDate) (cycleLength r)
  = new_Date host startDate + cycleLength r * MS_PER_DAY ->
  days r + getCurrentCycleDay host now startDate None = cycleLength r + 1.
Proof.
  cbv zeta. rewrite getPrediction_eq. cbv zeta. cbn [days cycleLength].
  intros ->. unfold getCurrentCycleDay, getTime.
  set (cl := fst (getAverageCycleLength host allDates)).
  rewrite Math_ceil_div, Math_floor_div.
  replace (- (new_Date host startDate + cl * MS_PER_DAY - now))
    with (now - new_Date host startDate + (- cl) * MS_PER_DAY) by lia.
  rewrite Z.div_add by discriminate. lia.
Qed.

(** X6.  On a host that keeps the day, whenever the estimated cycle
    length is not 0, ovulation is placed 14 days before the forecast of
    the next period, and, where the host reads its own rendering back,
    the fertile window opens 19 days before it. *)
Theorem ovulation_14_days_before_forecast (host : Host) (now : Z)
    (startDate : DateString) (allDates : list DateString) :
  let r := fst (getPrediction host now startDate allDates) in
  cycleLength r <> 0 ->
  keepsDay host ->
  exists day,
    date r = RenderedDay day
    /\ getOvulationDay host startDate (Some (cycleLength r))
       = RenderedDay (day - 14)
    /\ (readsBackItsDays host ->
        start (getFertilityWindow host startDate (Some (cycleLength r)))
        = RenderedDay (day - 19)).
Proof.
  cbv zeta. rewrite getPrediction_eq. cbv zeta. cbn [date cycleLength].
  set (cl := fst (getAverageCycleLength host allDates)).
  intros Hcl Hk.
  pose proof (orDefault28_nonzero cl Hcl) as E.
  exists (Day (LocalTime host (new_Date host startDate)) + cl).
  assert (Hov : getOvulationDay host startDate (Some cl)
                = RenderedDay
                    (Day (LocalTime host (new_Date host startDate)) + cl - 14)).
  { rewrite getOvulationDay_eq, E.
    rewrite toLocaleDateString_addLocalDays by assumption. f_equal. lia. }
  split; [now apply toLocaleDateString_addLocalDays|].
  split; [exact Hov|].
  intros Hr. rewrite getFertilityWindow_eq. cbv zeta. cbn [start].
  rewrite E, Hov, window_start by assumption. f_equal. lia.
Qed.

(** X9.  With the clock as reference, the cycle day never falls as time
    passes and rises by exactly [n] when [n] days pass. *)
Theorem cycle_day_follows_the_clock (host : Host) (now later n : Z)
    (startDate : DateString) :
  getCurrentCycleDay host (now + n * MS_PER_DAY) startDate None
  = getCurrentCycleDay host now startDate None + n
  /\ (now <= later ->
      getCurrentCycleDay host now startDate None
      <= getCurrentCycleDay host later startDate None).
Proof.
  unfold getCurrentCycleDay, getTime. rewrite !Math_floor_div. split.
  - replace (now + n * MS_PER_DAY - new_Date host startDate)
      with (now - new_Date host startDate + n * MS_PER_DAY) by lia.
    rewrite Z.div_add by discriminate. lia.
  - intros H. apply Z.add_le_mono_r, Z.div_le_mono; [reflexivity | lia].
Qed.

(* ================================================================= *)
(** ** The two classifications together *)

Ltac by_tags :=
  unfold getCyclePhase, getPregnancyChance, getPhaseDescription,
    getPossibleSymptoms, getPregnancyChanceDescription;
  repeat match goal with
         | |- context [?a <=? ?b] =>
             let E := fresh "E" in
             destruct (Z.leb_spec a b) as [E|E]; cbn [andb orb]
         end;
  cbn; try lia; try discriminate; auto.

(** X7.  The two tables agree where they meet: a Menstrual or Extended
    day is a Low day, an Ovulatory day is a High day, a Medium day is
    Follicular or Luteal, and a High day is Ovulatory or Luteal. *)
Theorem phase_and_chance_agree (day : Z) :
  (getCyclePhase day = "Menstrual"%string ->
   getPregnancyChance day = "Low"%string)
  /\ (getCyclePhase day = "Extended"%string ->
      getPregnancyChance day = "Low"%string)
  /\ (getCyclePhase day = "Ovulatory"%string ->
      getPregnancyChance day = "High"%string)
  /\ (getPregnancyChance day = "Medium"%string ->
      getCyclePhase day = "Follicular"%string
      \/ getCyclePhase day = "Luteal"%string)
  /\ (getPregnancyChance day = "High"%string ->
      getCyclePhase day = "Ovulatory"%string
      \/ getCyclePhase day = "Luteal"%string).
Proof. repeat split; by_tags. Qed.

(** X8.  The fall-back text of the three look-ups is never shown: every
    phase and every chance tier the classifiers return has a description,
    and every phase a list of symptoms. *)
Theorem classifier_texts_never_empty (day : Z) :
  getPhaseDescription (getCyclePhase day) <> ""%string
  /\ getPossibleSymptoms (getCyclePhase day) <> ""%string
  /\ getPregnancyChanceDescription (getPregnancyChance day) <> ""%string.
Proof. repeat split; by_tags. Qed.

(* ================================================================= *)
(** ** The calendar screen *)

Section CalendarFacts.

Variable host : Host.

Local Abbreviation timeOf := (Spec.timeOf host).

(** X10.  The calendar screen shows a cycle day only for a date on or
    after the start of the most recent period, and the day it shows is at
    least 1; for an earlier date it shows none. *)
Theorem calendar_cycle_day_at_least_1 (now : Z)
    (firstPeriodDate date : DateString) (cycleDayBefore : option Z) :
  match CalendarScreen.updateSelectedDateInfo host now (Some firstPeriodDate)
          date cycleDayBefore with
  | Some n =>
      1 <= n
      /\ timeOf firstPeriodDate <= timeOf date
      /\ n = getCurrentCycleDay host now firstPeriodDate (Some date)
  | None => timeOf date < timeOf firstPeriodDate
  end.
Proof.
  unfold CalendarScreen.updateSelectedDateInfo, Spec.timeOf.
  destruct (Z.leb_spec (getTime (new_Date host firstPeriodDate))
              (getTime (new_Date host date))) as [H|H]; [|exact H].
  cbn [getCycleInfo cycleDay].
  split; [|split; [exact H | reflexivity]].
  unfold getCurrentCycleDay. rewrite Math_floor_div.
  assert (0 <= (getTime (new_Date host date)
                - getTime (new_Date host firstPeriodDate)) / MS_PER_DAY)
    by (apply Z.div_pos; [lia | reflexivity]).
  lia.
Qed.

Lemma last_In {A : Type} (l : list A) (dflt : A) :
  l <> [] -> In (last l dflt) l.
Proof.
  induction l as [|x [|y l] IH]; intros H; [congruence | now left |].
  right. apply IH. discriminate.
Qed.

(** X11.  With dates in the store, the start the calendar screen keeps is
    one of the stored dates; every stored date is either on or after it, or
    more than seven days before it. *)
Theorem calendar_first_period_date (saved : list DateString) :
  saved <> [] ->
  exists s,
    CalendarScreen.loadData_firstPeriodDate host saved = Some s
    /\ In s saved
    /\ forall d, In d saved ->
         timeOf s <= timeOf d \/ timeOf d + 7 * MS_PER_DAY < timeOf s.
Proof.
  intros Hne.
  unfold CalendarScreen.loadData_firstPeriodDate.
  destruct saved as [|s0 saved']; [congruence|].
  cbn [List.length Nat.ltb Nat.leb]. set (saved := s0 :: saved') in *.
  fold (episodes host saved).
  pose proof (episodes_nonempty host saved) as Hnonempty.
  pose proof (concat_episodes host saved) as Hcat.
  pose proof (sortDates_perm host saved) as Hperm.
  pose proof (sortDates_descending host saved) as Hsorted.
  rewrite <- Hcat in Hperm, Hsorted.
  destruct (episodes host saved) as [|newer rest] eqn:He.
  { cbn [List.concat] in Hperm. apply Permutation_nil in Hperm.
    discriminate. }
  cbn [nth]. exists (lastOf newer).
  inversion Hnonempty as [|? ? Hnewer Hrest]; subst.
  assert (Hin : In (lastOf newer) newer) by now apply last_In.
  assert (Hstart : timeOf (lastOf newer) = Spec.startTime host newer).
  { apply (lastOf_startTime host saved). rewrite He. now left. }
  split; [reflexivity|]. split.
  { eapply Permutation_in; [exact Hperm|]. cbn [List.concat].
    apply in_or_app. now left. }
  intros d Hd.
  apply (Permutation_in _ (Permutation_sym Hperm)) in Hd.
  cbn [List.concat] in Hd. apply in_app_or in Hd. destruct Hd as [Hd|Hd].
  { left. rewrite Hstart. now apply startTime_below. }
  right. destruct rest as [|older e2]; [destruct Hd|].
  inversion Hrest as [|? ? Holder _]; subst.
  destruct older as [|b l']; [congruence|].
  assert (Hb : 7 * MS_PER_DAY < Spec.startTime host newer - timeOf b).
  { apply (older_dates_far_before host saved newer (b :: l') [] e2 b);
      [exact He | now left]. }
  assert (Hdb : timeOf d <= timeOf b).
  { cbn [List.concat] in Hd, Hsorted.
    destruct Hd as [<-|Hd]; [lia|].
    eapply (descending_after timeOf newer); [exact Hsorted | exact Hd]. }
  rewrite Hstart. lia.
Qed.

End CalendarFacts.

(* ================================================================= *)
(** ** More on sorting *)

Section SortMore.

Context {A : Type}.
Variable key : A -> Z.

Lemma Array_sort_ext (c1 c2 : A -> A -> Z) (l : list A) :
  (forall a b, c1 a b = c2 a b) -> Array_sort c1 l = Array_sort c2 l.
Proof.
  intros H. induction l as [|x l IH]; cbn [Array_sort]; [reflexivity|].
  rewrite IH. generalize (Array_sort c2 l). intros s.
  induction s as [|y s IHs]; cbn [insert]; [reflexivity|].
  now rewrite H, IHs.
Qed.

(** An element below all the others goes to the end. *)
Lemma insert_last (x : A) (l : list A) :
  Forall (fun y => key x < key y) l ->
  insert (fun a b => key b - key a) x l = l ++ [x].
Proof.
  induction l as [|y l IH]; intros H; cbn [insert app]; [reflexivity|].
  inversion H as [|? ? Hy Hl]; subst.
  destruct (Z.leb_spec (key y - key x) 0) as [E|E]; [lia|].
  now rewrite (IH Hl).
Qed.

(** Sorting a strictly ascending array in descending order reverses it. *)
Lemma Array_sort_reverses (l : list A) :
  StronglySorted (fun a b => key a < key b) l ->
  Array_sort (fun a b => key b - key a) l = rev l.
Proof.
  induction l as [|x l IH]; intros H; cbn [Array_sort rev]; [reflexivity|].
  inversion H as [|? ? Hl Hx]; subst.
  rewrite (IH Hl). apply insert_last.
  rewrite Forall_forall in *. intros y Hy. apply Hx. now apply in_rev.
Qed.

Lemma StronglySorted_snoc (R : A -> A -> Prop) (l : list A) (x : A) :
  StronglySorted R l -> Forall (fun y => R y x) l ->
  StronglySorted R (l ++ [x]).
Proof.
  induction l as [|y l IH]; intros Hs Hx; cbn [app].
  - repeat constructor.
  - inversion Hs as [|? ? Hl Hy]; subst. inversion Hx as [|? ? Hyx Hlx]; subst.
    constructor; [now apply IH|].
    apply Forall_app. split; [assumption | now constructor].
Qed.

Lemma StronglySorted_rev (R : A -> A -> Prop) (l : list A) :
  StronglySorted R l -> StronglySorted (fun a b => R b a) (rev l).
Proof.
  induction l as [|x l IH]; intros H; cbn [rev]; [constructor|].
  inversion H as [|? ? Hl Hx]; subst.
  apply StronglySorted_snoc; [now apply IH|].
  rewrite Forall_forall in *. intros y Hy. apply Hx. now apply in_rev.
Qed.

End SortMore.

(* ================================================================= *)
(** ** The statistics screen *)

Section StatsFacts.

Variable host : Host.

Local Abbreviation timeOf := (Spec.timeOf host).

Import StatsScreen.

(** The earliest date the screen picks out of a period starts it. *)
Lemma startOf_startTime (p : list DateString) :
  p <> [] -> timeOf (startOf host p) = Spec.startTime host p.
Proof.
  intros Hne. unfold startOf.
  rewrite (Array_sort_ext (byTimeAscending host)
             (fun a b => (fun s => - timeOf s) b - (fun s => - timeOf s) a))
    by (intros a b; unfold byTimeAscending, Spec.timeOf; lia).
  pose proof (Array_sort_perm (fun s => - timeOf s) p) as Hperm.
  pose proof (Array_sort_descending (fun s => - timeOf s) p) as Hsorted.
  destruct (Array_sort _ p) as [|h t].
  { apply Permutation_nil in Hperm. congruence. }
  cbn [nth].
  assert (Hh : In h p) by (eapply Permutation_in; [exact Hperm | now left]).
  pose proof (startTime_below host p h Hh) as Hlow.
  destruct (startTime_attained host p Hne) as (d0 & Hd0 & Hmin).
  apply (Permutation_in _ (Permutation_sym Hperm)) in Hd0.
  destruct Hd0 as [->|Hd0]; [now rewrite Hmin|].
  inversion Hsorted as [|? ? _ Hall]; subst.
  rewrite Forall_forall in Hall. specialize (Hall d0 Hd0).
  unfold before in Hall. lia.
Qed.

(** The starts of the episodes fall strictly from each to the next. *)
Lemma starts_strictly_descending (dates : list DateString) :
  StronglySorted (fun p q => Spec.startTime host q < Spec.startTime host p)
    (episodes host dates).
Proof.
  apply Sorted_StronglySorted.
  { intros p q r Hpq Hqr. lia. }
  assert (H : forall suffix e1, episodes host dates = e1 ++ suffix ->
              Sorted (fun p q => Spec.startTime host q < Spec.startTime host p)
                suffix).
  { induction suffix as [|p suffix IH]; intros e1 He; [constructor|].
    constructor.
    - apply (IH (e1 ++ [p])). now rewrite <- app_assoc.
    - destruct suffix as [|q suffix]; constructor.
      assert (Hq : In q (episodes host dates)).
      { rewrite He. apply in_or_app. right. right. now left. }
      pose proof (episodes_nonempty host dates) as Hne.
      rewrite Forall_forall in Hne.
      destruct (startTime_attained host q (Hne q Hq)) as (d0 & Hd0 & Hmin).
      pose proof (older_dates_far_before host dates p q e1 suffix d0
                    He Hd0) as Hfar.
      rewrite Hmin. change MS_PER_DAY with 86400000 in Hfar. lia. }
  exact (H (episodes host dates) [] eq_refl).
Qed.

Lemma historyLoop_entries (periods : list (list DateString)) :
  forall (count : nat) (before : list DateString)
         (history : list HistoryEntryWithDate),
    count = (List.length before + List.length periods)%nat ->
    historyLoop host count (before ++ map (startOf host) periods)
      (List.length before) periods history
    = history ++ entriesOf host periods None.
Proof.
  induction periods as [|p periods IH]; intros count before history Hcount.
  - cbn [historyLoop entriesOf]. now rewrite app_nil_r.
  - cbn [historyLoop entriesOf]. unfold push.
    replace (before ++ map (startOf host) (p :: periods))
      with ((before ++ [startOf host p]) ++ map (startOf host) periods)
      by (cbn [map]; now rewrite <- app_assoc).
    replace (S (List.length before))
      with (List.length (before ++ [startOf host p]))
      by (rewrite length_app; cbn [List.length]; lia).
    rewrite IH.
    2:{ rewrite length_app. cbn [List.length] in *. lia. }
    rewrite <- app_assoc. cbn [app]. do 2 f_equal.
    unfold entryOf. do 2 f_equal.
    destruct periods as [|q periods].
    + replace (List.length before =? count - 1)%nat with true; [reflexivity|].
      symmetry. apply Nat.eqb_eq. cbn [List.length] in Hcount. lia.
    + replace (List.length before =? count - 1)%nat with false.
      2:{ symmetry. apply Nat.eqb_neq. cbn [List.length] in Hcount. lia. }
      cbn [map]. rewrite <- !app_assoc. cbn [app].
      rewrite nth_middle, app_nth2_plus. reflexivity.
Qed.

Lemma entriesOf_snoc (l : list (list DateString)) (p : list DateString)
    (final : option (list DateString)) :
  entriesOf host (l ++ [p]) final
  = entriesOf host l (Some p) ++ [entryOf host p final].
Proof.
  induction l as [|q l IH]; [reflexivity|].
  cbn [app entriesOf]. rewrite IH. f_equal.
  destruct l; reflexivity.
Qed.

Lemma rest_entryOf (p : list DateString) (q : option (list DateString)) :
  p <> [] -> match q with Some q => q <> [] | None => True end ->
  rest (entryOf host p q) = rowOf host q p.
Proof.
  intros Hp Hq. unfold entryOf, rowOf, formatDate. cbn [rest].
  pose proof (startOf_startTime p Hp) as E. unfold Spec.timeOf in E.
  unfold getTime in *. rewrite E.
  destruct q as [q|]; [|reflexivity].
  pose proof (startOf_startTime q Hq) as E'. unfold Spec.timeOf in E'.
  unfold getTime in *. now rewrite E'.
Qed.

Lemma rev_entries_rows (eps : list (list DateString)) :
  forall final,
    Forall (fun p => p <> []) eps ->
    match final with Some q => q <> [] | None => True end ->
    rev (map rest (entriesOf host (rev eps) final)) = rowsOf host final eps.
Proof.
  induction eps as [|p eps IH]; intros final Hne Hfinal; [reflexivity|].
  inversion Hne as [|? ? Hp Heps]; subst.
  cbn [rev rowsOf]. rewrite entriesOf_snoc, map_app, rev_app_distr.
  cbn [map rev app]. rewrite (rest_entryOf p final Hp Hfinal).
  f_equal. now apply IH.
Qed.

End StatsFacts.

Lemma StronglySorted_map_in {A B : Type} (R : A -> A -> Prop)
    (R' : B -> B -> Prop) (f : A -> B) (l : list A) :
  (forall a b, In a l -> In b l -> R a b -> R' (f a) (f b)) ->
  StronglySorted R l -> StronglySorted R' (map f l).
Proof.
  induction l as [|x l IH]; intros Himp Hs; cbn [map]; [constructor|].
  inversion Hs as [|? ? Hl Hx]; subst. constructor.
  - apply IH; [|assumption]. intros a b Ha Hb. apply Himp; now right.
  - rewrite Forall_forall in *. intros y Hy.
    apply in_map_iff in Hy. destruct Hy as (a & <- & Ha).
    apply Himp; [now left | now right | now apply Hx].
Qed.

Lemma StronglySorted_weaken {A : Type} (R R' : A -> A -> Prop) (l : list A) :
  (forall a b, R a b -> R' a b) -> StronglySorted R l -> StronglySorted R' l.
Proof.
  intros Himp. induction 1 as [|x l Hl IH Hx]; constructor; [exact IH|].
  eapply Forall_impl; [|exact Hx]. intros y. apply Himp.
Qed.

Section StatsHistory.

Variable host : Host.

Local Abbreviation timeOf := (Spec.timeOf host).

Import StatsScreen.

Lemma originalDate_entriesOf (l : list (list DateString))
    (final : option (list DateString)) :
  map originalDate (entriesOf host l final) = map (startOf host) l.
Proof.
  induction l as [|p l IH]; [reflexivity|].
  cbn [entriesOf map]. now rewrite IH.
Qed.

(** In chronological order the starts rise strictly. *)
Lemma chronological_starts (dates : list DateString) :
  StronglySorted (fun a b => timeOf a < timeOf b)
    (map (startOf host) (rev (episodes host dates))).
Proof.
  pose proof (episodes_nonempty host dates) as Hne.
  rewrite Forall_forall in Hne.
  apply (StronglySorted_map_in
           (fun p q => Spec.startTime host p < Spec.startTime host q)).
  - intros p q Hp Hq H. apply in_rev in Hp, Hq.
    now rewrite !startOf_startTime by auto.
  - apply (StronglySorted_rev
             (fun p q => Spec.startTime host q < Spec.startTime host p)).
    apply starts_strictly_descending.
Qed.

Lemma sorted_by_map {A B : Type} (R : B -> B -> Prop) (f : A -> B)
    (l : list A) :
  StronglySorted R (map f l) -> StronglySorted (fun a b => R (f a) (f b)) l.
Proof.
  induction l as [|x l IH]; cbn [map]; intros H; [constructor|].
  inversion H as [|? ? Hl Hx]; subst. constructor; [now apply IH|].
  rewrite Forall_forall in *. intros y Hy. apply Hx. now apply in_map.
Qed.

(** The reversals and the three sorts of the screen come to this: one row
    for each episode, most recent first. *)
Lemma cycleHistory_rows (saved : list DateString) :
  saved <> [] ->
  cycleHistory (loadStatistics host saved)
  = rowsOf host None (episodes host saved).
Proof.
  intros Hne. unfold loadStatistics.
  destruct saved as [|s0 saved']; [congruence|].
  cbn [List.length Nat.eqb]. set (saved := s0 :: saved') in *.
  fold (episodes host saved).
  destruct (getAverageCycleLength host (Array_sort (byTimeDescending host) saved))
    as [cl after].
  cbn [cycleHistory].
  pose proof (chronological_starts saved) as Hchron.
  (* the start dates are in order already *)
  assert (Hfixed : Array_sort (byTimeAscending host)
                     (map (startOf host) (rev (episodes host saved)))
                   = map (startOf host) (rev (episodes host saved))).
  { rewrite (Array_sort_ext (byTimeAscending host)
               (fun a b => (fun s => - timeOf s) b - (fun s => - timeOf s) a))
      by (intros a b; unfold byTimeAscending, Spec.timeOf; lia).
    apply (Array_sort_fixed (fun s => - timeOf s)).
    eapply StronglySorted_weaken; [|exact Hchron].
    intros a b H. unfold before. cbv beta in *. lia. }
  rewrite Hfixed.
  pose proof (historyLoop_entries host (rev (episodes host saved))
                (List.length (rev (episodes host saved))) [] [] eq_refl) as Hloop.
  cbn [app List.length] in Hloop. rewrite Hloop.
  (* sorting the entries reverses them *)
  change (Array_sort (byOriginalDateDescending host))
    with (Array_sort (fun a b : HistoryEntryWithDate =>
                        (fun e => timeOf (originalDate e)) b
                        - (fun e => timeOf (originalDate e)) a)).
  rewrite (Array_sort_reverses (fun e => timeOf (originalDate e))).
  2:{ apply (sorted_by_map (fun a b => timeOf a < timeOf b) originalDate).
      now rewrite originalDate_entriesOf. }
  rewrite map_rev.
  apply rev_entries_rows; [apply episodes_nonempty | exact I].
Qed.

End StatsHistory.

Lemma Math_round_exact_abs_div (a : Z) :
  Math_round_exact (Math_abs (div a MS_PER_DAY))
  = (2 * Z.abs a + MS_PER_DAY) / (2 * MS_PER_DAY).
Proof.
  change MS_PER_DAY with 86400000.
  unfold Math_round_exact, Math_abs, div, Qdiv, Qinv, Qmult, Qplus, Qabs,
    inject_Z, Qfloor.
  cbn [Qnum Qden Pos.mul]. rewrite Z.mul_1_r. f_equal. lia.
Qed.

Lemma Math_round_exact_div (a b : Z) :
  0 < b ->
  Math_round_exact (div a b) = (2 * a + b) / (2 * b).
Proof.
  intros Hb. destruct b as [|b|b]; try lia.
  unfold Math_round_exact, div, Qdiv, Qinv, Qmult, Qplus, inject_Z, Qfloor.
  cbn [Qnum Qden]. rewrite !Pos2Z.inj_mul. f_equal; lia.
Qed.

Section StatsState.

Variable host : Host.

Local Abbreviation timeOf := (Spec.timeOf host).

Import StatsScreen.

(** A call on a sorted copy of the dates returns what a call on the dates
    returns. *)
Lemma getAverageCycleLength_sorted (dates : list DateString) :
  getAverageCycleLength host (Array_sort (byTimeDescending host) dates)
  = (fst (getAverageCycleLength host dates),
     Array_sort (byTimeDescending host) dates).
Proof.
  destruct (List.length dates <? 2)%nat eqn:E.
  - destruct dates as [|a [|b l]]; try reflexivity.
    cbn [List.length] in E. apply Nat.ltb_lt in E. lia.
  - pose proof (getAverageCycleLength_again host dates) as H.
    rewrite getAverageCycleLength_array, E in H. exact H.
Qed.

Lemma total_of_lengths (eps : list (list DateString)) :
  forall acc,
    fold_left (fun sum length => sum + length)
      (map (fun period => Z.of_nat (List.length period)) eps) acc
    = acc + Z.of_nat (List.length (List.concat eps)).
Proof.
  induction eps as [|p eps IH]; intros acc; cbn [map fold_left List.concat].
  - cbn. lia.
  - rewrite IH, length_app. lia.
Qed.

Lemma episodes_of_some (saved : list DateString) :
  saved <> [] -> (1 <= List.length (episodes host saved))%nat.
Proof.
  intros Hne.
  pose proof (concat_episodes host saved) as Hcat.
  pose proof (Permutation_length (sortDates_perm host saved)) as Hlen.
  destruct (episodes host saved) as [|p eps]; cbn [List.length]; [|lia].
  cbn [List.concat] in Hcat. rewrite <- Hcat in Hlen.
  destruct saved; [congruence | discriminate].
Qed.

Lemma length_concat_episodes (saved : list DateString) :
  List.length (List.concat (episodes host saved)) = List.length saved.
Proof.
  rewrite concat_episodes. apply Permutation_length, sortDates_perm.
Qed.

Lemma length_episodes_le (saved : list DateString) :
  (List.length (episodes host saved) <= List.length saved)%nat.
Proof.
  rewrite <- length_concat_episodes.
  pose proof (episodes_nonempty host saved) as Hnonempty.
  induction Hnonempty as [|p eps Hp Hnonempty IH]; [reflexivity|].
  cbn [List.concat]. rewrite length_app. destruct p; [congruence|].
  change (List.length (d :: p)) with (S (List.length p)).
  change (List.length ((d :: p) :: eps)) with (S (List.length eps)). lia.
Qed.

(** X12.  With dates in the store, [loadStatistics] sets: as completed
    cycles the number of episodes less one; as average cycle length the
    estimate of the service for the stored dates; as average period length
    the number of dates divided by the number of episodes, rounded, a half
    going up; and as history one row for each episode, most recent first,
    with its earliest date and its number of logged days, "In progress" in
    the first row and in every other row the rounded number of days from
    its start to the start of the episode before it. *)
Theorem loadStatistics_state (saved : list DateString) :
  saved <> [] ->
  loadStatistics host saved
  = {| completedCycles := Z.of_nat (List.length (episodes host saved)) - 1;
       averageCycleLength := fst (getAverageCycleLength host saved);
       averagePeriodLength :=
         Math_round_exact
           (div (Z.of_nat (List.length saved))
                (Z.of_nat (List.length (episodes host saved))));
       cycleHistory := rowsOf host None (episodes host saved) |}.
Proof.
  intros Hne.
  pose proof (cycleHistory_rows host saved Hne) as Hrows.
  pose proof (episodes_of_some saved Hne) as Hsome.
  unfold loadStatistics in *.
  destruct saved as [|s0 saved']; [congruence|].
  cbn [List.length Nat.eqb] in *. set (saved := s0 :: saved') in *.
  fold (episodes host saved) in *.
  rewrite getAverageCycleLength_sorted in *. cbn [cycleHistory] in Hrows.
  rewrite Hrows, length_map, total_of_lengths, length_concat_episodes.
  f_equal. lia.
Qed.

Lemma length_rowsOf (eps : list (list DateString)) :
  forall newer, List.length (rowsOf host newer eps) = List.length eps.
Proof.
  induction eps as [|p eps IH]; intros newer; cbn [rowsOf List.length];
    [reflexivity | now rewrite IH].
Qed.

Lemma periodLength_rowsOf (eps : list (list DateString)) :
  forall newer,
    fold_right (fun row total => periodLength row + total) 0
      (rowsOf host newer eps)
    = Z.of_nat (List.length (List.concat eps)).
Proof.
  induction eps as [|p eps IH]; intros newer;
    cbn [rowsOf fold_right List.concat]; [reflexivity|].
  rewrite IH, length_app. cbn [rowOf periodLength]. lia.
Qed.

Lemma loadStatistics_fields (saved : list DateString) :
  saved <> [] ->
  completedCycles (loadStatistics host saved)
  = Z.of_nat (List.length (episodes host saved)) - 1
  /\ averagePeriodLength (loadStatistics host saved)
     = Math_round_exact
         (div (Z.of_nat (List.length saved))
              (Z.of_nat (List.length (episodes host saved)))).
Proof.
  intros Hne.
  pose proof (episodes_of_some saved Hne) as Hsome.
  unfold loadStatistics.
  destruct saved as [|s0 saved']; [congruence|].
  cbn [List.length Nat.eqb]. set (saved := s0 :: saved') in *.
  fold (episodes host saved).
  rewrite getAverageCycleLength_sorted.
  cbn [completedCycles averagePeriodLength].
  rewrite length_map, total_of_lengths, length_concat_episodes.
  split; [lia | reflexivity].
Qed.

(** X13.  Whatever the store holds, the number of completed cycles is the
    number of history rows less one (0 when there is none), there are at
    most as many rows as stored dates, and the period lengths of the rows
    add up to the number of stored dates. *)
Theorem history_accounts_for_every_date (saved : list DateString) :
  let st := loadStatistics host saved in
  completedCycles st
  = Z.max 0 (Z.of_nat (List.length (cycleHistory st)) - 1)
  /\ (List.length (cycleHistory st) <= List.length saved)%nat
  /\ fold_right (fun row total => periodLength row + total) 0
       (cycleHistory st)
     = Z.of_nat (List.length saved).
Proof.
  destruct saved as [|s0 saved'].
  { cbn. repeat split; lia. }
  set (saved := s0 :: saved').
  assert (Hne : saved <> []) by discriminate.
  cbv zeta.
  destruct (loadStatistics_fields saved Hne) as [Hc _].
  rewrite Hc, (cycleHistory_rows host saved Hne).
  rewrite length_rowsOf, periodLength_rowsOf, length_concat_episodes.
  pose proof (episodes_of_some saved Hne) as Hsome.
  pose proof (length_episodes_le saved) as Hle.
  repeat split; lia.
Qed.

(** X16.  With dates in the store, the average period length is the
    number of stored dates divided by the number of episodes and rounded, a
    half going up; it is at least 1 and at most the number of dates. *)
Theorem average_period_length_bounds (saved : list DateString) :
  saved <> [] ->
  let avg := averagePeriodLength (loadStatistics host saved) in
  let dates := Z.of_nat (List.length saved) in
  let eps := Z.of_nat (List.length (episodes host saved)) in
  eps * (2 * avg - 1) <= 2 * dates < eps * (2 * avg + 1)
  /\ 1 <= avg <= dates.
Proof.
  intros Hne avg dates eps.
  destruct (loadStatistics_fields saved Hne) as [_ Ha].
  pose proof (episodes_of_some saved Hne) as Hsome.
  assert (Hle : eps <= dates).
  { subst eps dates. pose proof (length_episodes_le saved). lia. }
  assert (Hpos : 0 < eps) by (subst eps; lia).
  subst avg. rewrite Ha. fold dates eps.
  rewrite (Math_round_exact_div dates eps Hpos).
  pose proof (Z.mul_div_le (2 * dates + eps) (2 * eps)) as H1.
  pose proof (Z.mul_succ_div_gt (2 * dates + eps) (2 * eps)) as H2.
  set (q := (2 * dates + eps) / (2 * eps)) in *.
  assert (H1' : 2 * eps * q <= 2 * dates + eps) by (apply H1; lia).
  assert (H2' : 2 * dates + eps < 2 * eps * Z.succ q) by (apply H2; lia).
  split; [nia|]. split; nia.
Qed.

End StatsState.

Section StatsLengths.

Variable host : Host.

Local Abbreviation timeOf := (Spec.timeOf host).

Import StatsScreen.

(** Rounded and whole days of a time span of more than seven days. *)
Lemma rounded_days (a : Z) :
  7 * MS_PER_DAY < a ->
  let n := Math_round_exact (Math_abs (div a MS_PER_DAY)) in
  7 <= n /\ a / MS_PER_DAY <= n <= a / MS_PER_DAY + 1.
Proof.
  intros Ha n. subst n. rewrite Math_round_exact_abs_div.
  rewrite Z.abs_eq by (change MS_PER_DAY with 86400000 in Ha; lia).
  change MS_PER_DAY with 86400000 in *.
  Z.to_euclidean_division_equations. lia.
Qed.

Lemma rounded_whole_days (k : Z) :
  0 <= k ->
  Math_round_exact (Math_abs (div (k * MS_PER_DAY) MS_PER_DAY)) = k
  /\ k * MS_PER_DAY / MS_PER_DAY = k.
Proof.
  intros Hk. rewrite Math_round_exact_abs_div.
  rewrite Z.abs_eq by (change MS_PER_DAY with 86400000; lia).
  change MS_PER_DAY with 86400000.
  split; Z.to_euclidean_division_equations; lia.
Qed.

Lemma rows_lengths (eps : list (list DateString)) :
  forall newer,
    (forall e1 a b e2, newer :: eps = e1 ++ a :: b :: e2 ->
       Spec.startTime host b + 7 * MS_PER_DAY < Spec.startTime host a) ->
    exists ns,
      map cycleLength (rowsOf host (Some newer) eps) = map Num ns
      /\ Forall2 (fun n g => 7 <= n /\ g <= n <= g + 1) ns
           (Spec.gaps host (newer :: eps))
      /\ (Forall (aligned host) (newer :: eps) -> ns = Spec.gaps host (newer :: eps)).
Proof.
  induction eps as [|p eps IH]; intros newer Hfar.
  - exists []. repeat split; constructor.
  - destruct (IH p) as (ns & Hmap & Hall & Heq).
    { intros e1 a b e2 He. apply (Hfar (newer :: e1) a b e2).
      cbn [app]. now rewrite He. }
    pose proof (Hfar [] newer p eps eq_refl) as Hnp.
    pose proof (rounded_days (Spec.startTime host newer - Spec.startTime host p))
      as Hround.
    cbv zeta in Hround. specialize (Hround ltac:(lia)).
    exists (Math_round_exact
              (Math_abs (div (Spec.startTime host newer - Spec.startTime host p)
                             MS_PER_DAY)) :: ns).
    rewrite gaps_cons. cbn [rowsOf map rowOf cycleLength].
    split; [now rewrite Hmap|]. split.
    + constructor; [exact Hround | exact Hall].
    + intros Hal. inversion Hal as [|? ? [k Hk] Hal']; subst.
      pose proof Hal' as Hal''.
      inversion Hal'' as [|? ? [k' Hk'] _]; subst.
      rewrite (Heq Hal'). f_equal.
      unfold Spec.gapDays. rewrite Hk, Hk' in *.
      replace (k * MS_PER_DAY - k' * MS_PER_DAY) with ((k - k') * MS_PER_DAY)
        in * by lia.
      assert (Hpos : 0 <= k - k')
        by (change MS_PER_DAY with 86400000 in Hnp; lia).
      destruct (rounded_whole_days (k - k') Hpos) as [-> ->]. reflexivity.
Qed.

Lemma episodes_margins (saved : list DateString) :
  forall e1 a b e2, episodes host saved = e1 ++ a :: b :: e2 ->
    Spec.startTime host b + 7 * MS_PER_DAY < Spec.startTime host a.
Proof.
  intros e1 a b e2 He.
  assert (Hb : In b (episodes host saved)).
  { rewrite He. apply in_or_app. right. right. now left. }
  pose proof (episodes_nonempty host saved) as Hne.
  rewrite Forall_forall in Hne.
  destruct (startTime_attained host b (Hne b Hb)) as (d & Hd & Hs).
  pose proof (older_dates_far_before host saved a b e1 e2 d He Hd). lia.
Qed.

(** X14.  With dates in the store, the first row of the history reads
    "In progress" and every other row carries a number of days; that number
    is at least 7 and is the whole-day gap the estimate uses for the same
    two episodes, or one more. *)
Theorem history_cycle_lengths (saved : list DateString) :
  saved <> [] ->
  exists ns,
    map cycleLength (cycleHistory (loadStatistics host saved))
    = Str "In progress" :: map Num ns
    /\ Forall2 (fun n g => 7 <= n /\ g <= n <= g + 1) ns
         (Spec.gaps host (episodes host saved)).
Proof.
  intros Hne. rewrite (cycleHistory_rows host saved Hne).
  pose proof (episodes_of_some host saved Hne) as Hsome.
  pose proof (episodes_margins saved) as Hfar.
  destruct (episodes host saved) as [|newest eps]; [cbn in Hsome; lia|].
  destruct (rows_lengths eps newest Hfar) as (ns & Hmap & Hall & _).
  exists ns. cbn [rowsOf map rowOf cycleLength]. now rewrite Hmap.
Qed.

(** X15.  When the store holds dates in its own form ('YYYY-MM-DD'), the
    numbers in the history are exactly the gaps the estimate is computed
    from, in the same order. *)
Theorem history_shows_the_gaps_of_the_estimate (saved : list DateString) :
  saved <> [] ->
  (forall d, In d saved -> exists day, d = ISODate day) ->
  map cycleLength (cycleHistory (loadStatistics host saved))
  = Str "In progress" :: map Num (Spec.gaps host (episodes host saved)).
Proof.
  intros Hne Hiso. rewrite (cycleHistory_rows host saved Hne).
  pose proof (episodes_of_some host saved Hne) as Hsome.
  pose proof (episodes_margins saved) as Hfar.
  assert (Hal : Forall (aligned host) (episodes host saved)).
  { pose proof (episodes_nonempty host saved) as Hnonempty.
    rewrite Forall_forall in *. intros p Hp.
    destruct (startTime_attained host p (Hnonempty p Hp)) as (d & Hd & Hs).
    assert (Hin : In d saved).
    { eapply Permutation_in; [apply (sortDates_perm host)|].
      rewrite <- concat_episodes. apply in_concat. eauto. }
    destruct (Hiso d Hin) as [day ->]. exists day. exact Hs. }
  destruct (episodes host saved) as [|newest eps]; [cbn in Hsome; lia|].
  destruct (rows_lengths eps newest Hfar) as (ns & Hmap & _ & Heq).
  cbn [rowsOf map rowOf cycleLength]. now rewrite Hmap, (Heq Hal).
Qed.

End StatsLengths.

(* ================================================================= *)
(** ** More on the effects and on the fertile window *)

(** X17.  A call on two dates or more leaves the caller's array sorted,
    most recent first; an array that is in that order already is left as
    it is. *)
Theorem array_left_most_recent_first (host : Host) (dates : list DateString) :
  ((2 <= List.length dates)%nat ->
   descending (Spec.timeOf host) (snd (getAverageCycleLength host dates)))
  /\ (descending (Spec.timeOf host) dates ->
      snd (getAverageCycleLength host dates) = dates).
Proof.
  rewrite getAverageCycleLength_array. split.
  - intros H. apply Nat.ltb_ge in H. rewrite H. apply sortDates_descending.
  - intros H. destruct (List.length dates <? 2)%nat; [reflexivity|].
    now apply sortDates_fixed.
Qed.

(** X18.  Whatever cycle length is passed, omitted and 0 included, the
    fertile window ends on the day [getOvulationDay] gives for the same
    argument.  Its start is the text 'Invalid Date' where the host cannot
    read that day back from its rendering, and five days before it on a
    host that keeps the day and reads its own rendering back. *)
Theorem fertility_window_fits_ovulation_day (host : Host) (startDate : DateString)
    (length : option Z) :
  let w := getFertilityWindow host startDate length in
  let ov := getOvulationDay host startDate length in
  end_ w = ov
  /\ ovulationDay w = ov
  /\ (new_Date_rendered host ov = None -> start w = InvalidDate)
  /\ (keepsDay host -> readsBackItsDays host ->
      exists day, ov = RenderedDay day /\ start w = RenderedDay (day - 5)).
Proof.
  cbv zeta. rewrite getFertilityWindow_eq. cbv zeta. cbn [start end_ ovulationDay].
  assert (E : getOvulationDay host startDate (Some (orDefault28 length))
              = getOvulationDay host startDate length).
  { now rewrite !getOvulationDay_eq, orDefault28_idem. }
  rewrite E. split; [reflexivity|]. split; [reflexivity|].
  split; [now intros ->|].
  intros Hk Hr.
  exists (Day (LocalTime host (new_Date host startDate))
          + (orDefault28 length - 14)).
  assert (Hov : getOvulationDay host startDate length
                = RenderedDay (Day (LocalTime host (new_Date host startDate))
                               + (orDefault28 length - 14))).
  { rewrite getOvulationDay_eq. now apply toLocaleDateString_addLocalDays. }
  split; [exact Hov|].
  rewrite Hov. now apply window_start.
Qed.

(* ================================================================= *)
(** ** The properties above at work *)

Lemma episode_neighbours_within_7_days_witness :
  0 <= Spec.timeOf utc (iso 2024 2 7) - Spec.timeOf utc (iso 2024 2 6)
  <= 7 * MS_PER_DAY.
Proof.
  apply (episode_neighbours_within_7_days utc sixDates
           [iso 2024 2 7; iso 2024 2 6] [] []).
  - vm_compute. right. left. reflexivity.
  - reflexivity.
Defined.

Lemma episodes_more_than_7_days_apart_witness :
  (forall d, In d [iso 2024 1 19] ->
     7 * MS_PER_DAY
     < Spec.startTime utc [iso 2024 2 7; iso 2024 2 6] - Spec.timeOf utc d)
  /\ Spec.startTime utc [iso 2024 1 19] + 7 * MS_PER_DAY
     < Spec.startTime utc [iso 2024 2 7; iso 2024 2 6]
  /\ 7 <= Spec.gapDays utc [iso 2024 2 7; iso 2024 2 6] [iso 2024 1 19].
Proof.
  apply (episodes_more_than_7_days_apart utc sixDates
           [iso 2024 2 7; iso 2024 2 6] [iso 2024 1 19]
           [[iso 2024 2 18]] [[iso 2024 1 2; iso 2024 1 1]]).
  vm_compute. reflexivity.
Defined.

Lemma estimate_ignores_input_order_witness :
  fst (getAverageCycleLength utc sixDates)
  = fst (getAverageCycleLength utc (rev sixDates)).
Proof.
  apply estimate_ignores_input_order. apply Permutation_rev.
Defined.

Lemma days_until_plus_cycle_day_witness :
  days (fst (getPrediction berlin2024 (new_Date utc (iso 2024 2 20) + 9 * hour)
               (iso 2024 1 29) [iso 2024 1 1; iso 2024 1 29]))
  + getCurrentCycleDay berlin2024 (new_Date utc (iso 2024 2 20) + 9 * hour)
      (iso 2024 1 29) None
  = 28 + 1.
Proof.
  apply (days_until_plus_cycle_day berlin2024
           (new_Date utc (iso 2024 2 20) + 9 * hour) (iso 2024 1 29)
           [iso 2024 1 1; iso 2024 1 29]).
  vm_compute. reflexivity.
Defined.

Lemma ovulation_14_days_before_forecast_witness :
  exists day,
    date (fst (getPrediction utc 0 (iso 2024 2 18) sixDates)) = RenderedDay day
    /\ getOvulationDay utc (iso 2024 2 18) (Some 15) = RenderedDay (day - 14)
    /\ (readsBackItsDays utc ->
        start (getFertilityWindow utc (iso 2024 2 18) (Some 15))
        = RenderedDay (day - 19)).
Proof.
  apply (ovulation_14_days_before_forecast utc 0 (iso 2024 2 18) sixDates).
  - vm_compute. discriminate.
  - apply fixedOffset_keepsDay.
Defined.

Lemma calendar_first_period_date_witness :
  exists s,
    CalendarScreen.loadData_firstPeriodDate utc sixDates = Some s
    /\ In s sixDates
    /\ forall d, In d sixDates ->
         Spec.timeOf utc s <= Spec.timeOf utc d
         \/ Spec.timeOf utc d + 7 * MS_PER_DAY < Spec.timeOf utc s.
Proof.
  apply calendar_first_period_date. vm_compute. discriminate.
Defined.

Lemma loadStatistics_state_witness :
  StatsScreen.loadStatistics utc sixDates
  = {| StatsScreen.completedCycles :=
         Z.of_nat (List.length (episodes utc sixDates)) - 1;
       StatsScreen.averageCycleLength :=
         fst (getAverageCycleLength utc sixDates);
       StatsScreen.averagePeriodLength :=
         Math_round_exact
           (div (Z.of_nat (List.length sixDates))
                (Z.of_nat (List.length (episodes utc sixDates))));
       StatsScreen.cycleHistory :=
         StatsScreen.rowsOf utc None (episodes utc sixDates) |}.
Proof.
  apply loadStatistics_state. vm_compute. discriminate.
Defined.

Lemma history_cycle_lengths_witness :
  exists ns,
    map StatsScreen.cycleLength
      (StatsScreen.cycleHistory (StatsScreen.loadStatistics utc sixDates))
    = StatsScreen.Str "In progress" :: map StatsScreen.Num ns
    /\ Forall2 (fun n g => 7 <= n /\ g <= n <= g + 1) ns
         (Spec.gaps utc (episodes utc sixDates)).
Proof.
  apply history_cycle_lengths. vm_compute. discriminate.
Defined.

Lemma history_shows_the_gaps_of_the_estimate_witness :
  map StatsScreen.cycleLength
    (StatsScreen.cycleHistory (StatsScreen.loadStatistics utc sixDates))
  = StatsScreen.Str "In progress"
    :: map StatsScreen.Num (Spec.gaps utc (episodes utc sixDates)).
Proof.
  apply history_shows_the_gaps_of_the_estimate.
  - vm_compute. discriminate.
  - intros d Hd. vm_compute in Hd.
    repeat (destruct Hd as [<-|Hd]; [eexists; reflexivity|]).
    destruct Hd.
Defined.

Lemma average_period_length_bounds_witness :
  let avg :=
    StatsScreen.averagePeriodLength (StatsScreen.loadStatistics utc sixDates) in
  let dates := Z.of_nat (List.length sixDates) in
  let eps := Z.of_nat (List.length (episodes utc sixDates)) in
  eps * (2 * avg - 1) <= 2 * dates < eps * (2 * avg + 1)
  /\ 1 <= avg <= dates.
Proof.
  apply average_period_length_bounds. vm_compute. discriminate.
Defined.

(** The statistics of the six dates. *)
Example statistics_of_six_dates :
  StatsScreen.loadStatistics utc sixDates
  = {| StatsScreen.completedCycles := 3;
       StatsScreen.averageCycleLength := 15;
       StatsScreen.averagePeriodLength := 2;
       StatsScreen.cycleHistory :=
         [ {| StatsScreen.startDate := "Feb 18";
              StatsScreen.cycleLength := StatsScreen.Str "In progress";
              StatsScreen.periodLength := 1 |};
           {| StatsScreen.startDate := "Feb 6";
              StatsScreen.cycleLength := StatsScreen.Num 12;
              StatsScreen.periodLength := 2 |};
           {| StatsScreen.startDate := "Jan 19";
              StatsScreen.cycleLength := StatsScreen.Num 18;
              StatsScreen.periodLength := 1 |};
           {| StatsScreen.startDate := "Jan 1";
              StatsScreen.cycleLength := StatsScreen.Num 18;
              StatsScreen.periodLength := 2 |} ] |}.
Proof. vm_compute. reflexivity. Qed.
